(** * LegalMind backend ([app.py]): a shallow embedding and its properties

    The Flask application is embedded function by function.  The parts of
    the program that live outside the repository (the environment, the
    clock, PyPDF2 and the Gemini SDK) are gathered in a record [World] of
    oracles; the SQLite store is an explicit value threaded through the
    handlers, together with a trace of the writes and of the generation
    calls each handler performs.

    Modelling choices, stated once:
    - Python [str] is [string], holding the UTF-8 bytes of the text; a lone
      surrogate, which a [str] can hold, is the three bytes its code point
      would take.
    - A raised exception is a value of [exn]; [try]/[except] is a [match].
      A [UnicodeEncodeError] is a [ValueError], as it is for [except].
    - [sys.stdout] is UTF-8.  Of the diagnostics written with [print], the
      two that format the caller's model name are modelled, since they
      raise on a name that cannot be encoded; the others, which format
      messages of the libraries, are taken to succeed.
    - Writes to the database do not fail; the key lookup of
      [DELETE /document/<id>] fails on a key SQLite cannot hold. *)

From Stdlib Require Import List String Ascii ZArith Arith Lia Bool.
From Stdlib Require Import Strings.Byte.
From Stdlib Require Import Permutation Sorted DecimalString.
Import ListNotations.

Open Scope string_scope.
Open Scope list_scope.
Open Scope nat_scope.

(** ** Exceptions and fallible results *)

Inductive exn : Type :=
| ValueError (msg : string)
| TypeError (msg : string)
| AttributeError (msg : string)
| OverflowError (msg : string)
| Exception (msg : string).

(** [str(e)], as interpolated by the f-strings of the handlers. *)
Definition str_exn (e : exn) : string :=
  match e with
  | ValueError m | TypeError m | AttributeError m | OverflowError m
  | Exception m => m
  end.

Inductive result (A : Type) : Type :=
| Ok (a : A)
| Raise (e : exn).
Arguments Ok {A} a.
Arguments Raise {A} e.

(** ** Strings *)

(** The characters [str.strip()] removes, each as its UTF-8 bytes: the
    code points for which [str.isspace] holds. *)
Definition whitespace : list string :=
  [
   (* U+0009 to U+000D *)
   String "009" EmptyString;
   String "010" EmptyString;
   String "011" EmptyString;
   String "012" EmptyString;
   String "013" EmptyString;
   (* U+001C to U+001F, U+0020 *)
   String "028" EmptyString;
   String "029" EmptyString;
   String "030" EmptyString;
   String "031" EmptyString;
   String "032" EmptyString;
   (* U+0085, U+00A0, U+1680 *)
   String "194" (String "133" EmptyString);
   String "194" (String "160" EmptyString);
   String "225" (String "154" (String "128" EmptyString));
   (* U+2000 to U+200A *)
   String "226" (String "128" (String "128" EmptyString));
   String "226" (String "128" (String "129" EmptyString));
   String "226" (String "128" (String "130" EmptyString));
   String "226" (String "128" (String "131" EmptyString));
   String "226" (String "128" (String "132" EmptyString));
   String "226" (String "128" (String "133" EmptyString));
   String "226" (String "128" (String "134" EmptyString));
   String "226" (String "128" (String "135" EmptyString));
   String "226" (String "128" (String "136" EmptyString));
   String "226" (String "128" (String "137" EmptyString));
   String "226" (String "128" (String "138" EmptyString));
   (* U+2028, U+2029, U+202F, U+205F, U+3000 *)
   String "226" (String "128" (String "168" EmptyString));
   String "226" (String "128" (String "169" EmptyString));
   String "226" (String "128" (String "175" EmptyString));
   String "226" (String "129" (String "159" EmptyString));
   String "227" (String "128" (String "128" EmptyString))
  ].

(** [s.startswith(p)]. *)
Fixpoint starts_with (p s : string) : bool :=
  match p with
  | EmptyString => true
  | String a p' =>
      match s with
      | EmptyString => false
      | String b s' => Ascii.eqb a b && starts_with p' s'
      end
  end.

(** The length in bytes of the whitespace character [s] starts with, 0 when
    it starts with none. *)
Definition space_len (s : string) : nat :=
  match find (fun ws => starts_with ws s) whitespace with
  | Some ws => String.length ws
  | None => 0
  end.

(** [lstrip], byte by byte: [skip] bytes of a whitespace character are
    still to be dropped. *)
Fixpoint lstrip_from (skip : nat) (s : string) : string :=
  match s with
  | EmptyString => EmptyString
  | String c s' =>
      match skip with
      | S k => lstrip_from k s'
      | 0 =>
          match space_len s with
          | 0 => s
          | S k => lstrip_from k s'
          end
      end
  end.

Definition lstrip (s : string) : string := lstrip_from 0 s.

(** [rstrip]: a suffix made of whitespace only is dropped. *)
Fixpoint rstrip (s : string) : string :=
  match s with
  | EmptyString => EmptyString
  | String c s' =>
      match lstrip s with
      | EmptyString => EmptyString
      | _ => String c (rstrip s')
      end
  end.

(** [str.strip()]. *)
Definition strip (s : string) : string := rstrip (lstrip s).

(** A continuation byte of UTF-8. *)
Definition is_continuation (c : ascii) : bool :=
  (128 <=? nat_of_ascii c) && (nat_of_ascii c <? 192).

(** The surrogate code point [s] starts with, if it starts with one: the
    bytes ED, A0 to BF, 80 to BF. *)
Definition surrogate_at_head (s : string) : option N :=
  match s with
  | String a (String b (String c _)) =>
      if (nat_of_ascii a =? 237)
         && (160 <=? nat_of_ascii b) && (nat_of_ascii b <=? 191)
         && is_continuation c
      then Some (53248 + N.of_nat ((nat_of_ascii b - 128) * 64 + (nat_of_ascii c - 128)))%N
      else None
  | _ => None
  end.

(** How many surrogates follow one another at the head of [s]. *)
Fixpoint surrogate_run (s : string) : nat :=
  match s with
  | String a (String b (String c r)) =>
      match surrogate_at_head s with
      | Some _ => S (surrogate_run r)
      | None => 0
      end
  | _ => 0
  end.

(** The first surrogate of [s]: its index counted in characters from
    [idx], its code point, and the length of the run it starts. *)
Fixpoint first_surrogate (idx : nat) (s : string) : option (nat * N * nat) :=
  match s with
  | EmptyString => None
  | String c s' =>
      match surrogate_at_head s with
      | Some cp => Some (idx, cp, surrogate_run s)
      | None => first_surrogate (if is_continuation c then idx else S idx) s'
      end
  end.

Definition hex_digit (n : N) : string :=
  String (nth (N.to_nat n) ["0"; "1"; "2"; "3"; "4"; "5"; "6"; "7"; "8"; "9";
                 "a"; "b"; "c"; "d"; "e"; "f"]%char "0"%char) EmptyString.

(** [%04x]. *)
Definition hex4 (n : N) : string :=
  (hex_digit ((n / 4096) mod 16)%N ++ hex_digit ((n / 256) mod 16)%N
   ++ hex_digit ((n / 16) mod 16)%N ++ hex_digit (n mod 16)%N)%string.

Definition decimal (n : nat) : string := NilZero.string_of_uint (Nat.to_uint n).

(** [str(e)] for the [UnicodeEncodeError] that encoding [s] as UTF-8
    raises; [None] when [s] can be encoded. *)
Definition encode_error (s : string) : option string :=
  match first_surrogate 0 s with
  | None => None
  | Some (start, cp, run) =>
      Some (if run =? 1
            then ("'utf-8' codec can't encode character '\u" ++ hex4 cp
                  ++ "' in position " ++ decimal start
                  ++ ": surrogates not allowed")%string
            else ("'utf-8' codec can't encode characters in position "
                  ++ decimal start ++ "-" ++ decimal (start + run - 1)
                  ++ ": surrogates not allowed")%string)
  end.

(** [s] holds a lone surrogate. *)
Definition has_surrogate (s : string) : bool :=
  match first_surrogate 0 s with Some _ => true | None => false end.

(** Truthiness of a [str]. *)
Definition truthy_str (s : string) : bool :=
  match s with EmptyString => false | _ => true end.

(** [sub in s] for two strings. *)
Fixpoint str_contains (sub s : string) : bool :=
  if String.prefix sub s then true
  else match s with
       | EmptyString => false
       | String _ s' => str_contains sub s'
       end.

(** ["".join(parts)]. *)
Definition join_empty (parts : list string) : string :=
  fold_right String.append EmptyString parts.

(** ** [datetime] *)

Record datetime : Type := mk_datetime {
  year : nat; month : nat; day : nat;
  hour : nat; minute : nat; second : nat; microsecond : nat
}.

Definition datetime_fields (t : datetime) : list nat :=
  [year t; month t; day t; hour t; minute t; second t; microsecond t].

Fixpoint lex_compare (a b : list nat) : comparison :=
  match a, b with
  | [], [] => Eq
  | [], _ :: _ => Lt
  | _ :: _, [] => Gt
  | x :: a', y :: b' =>
      match Nat.compare x y with
      | Eq => lex_compare a' b'
      | c => c
      end
  end.

(** Comparison of two [datetime] values, field by field. *)
Definition datetime_compare (a b : datetime) : comparison :=
  lex_compare (datetime_fields a) (datetime_fields b).

Definition datetime_geb (a b : datetime) : bool :=
  match datetime_compare a b with Lt => false | _ => true end.

Definition datetime_gtb (a b : datetime) : bool :=
  match datetime_compare a b with Gt => true | _ => false end.

(** Two-digit, zero-padded field ([%d], [%I], [%M]). *)
Definition pad2 (n : nat) : string :=
  if n <? 10 then ("0" ++ decimal n)%string else decimal n.

Definition month_abbr (m : nat) : string :=
  nth (m - 1)
      ["Jan"; "Feb"; "Mar"; "Apr"; "May"; "Jun";
       "Jul"; "Aug"; "Sep"; "Oct"; "Nov"; "Dec"] EmptyString.

(** [strftime('%b %d, %Y')]. *)
Definition strftime_date (t : datetime) : string :=
  (month_abbr (month t) ++ " " ++ pad2 (day t) ++ ", " ++ decimal (year t))%string.

Definition hour12 (h : nat) : nat :=
  if h mod 12 =? 0 then 12 else h mod 12.

(** [strftime('%b %d, %Y, %I:%M %p')]. *)
Definition strftime_minute (t : datetime) : string :=
  (strftime_date t ++ ", " ++ pad2 (hour12 (hour t)) ++ ":" ++ pad2 (minute t)
   ++ " " ++ (if (hour t <? 12)%nat then "AM" else "PM"))%string.

(** ** JSON values, as Python sees them after [get_json] / before [jsonify] *)

#[local] Unset Elimination Schemes.
Inductive json : Type :=
| JNull
| JBool (b : bool)
| JNum (n : Z)
| JStr (s : string)
| JArr (items : list json)
| JObj (fields : list (string * json)).
#[local] Set Elimination Schemes.

Definition json_of_option (o : option string) : json :=
  match o with Some s => JStr s | None => JNull end.

(** Lookup in a [dict] or in a werkzeug [MultiDict] (first value wins). *)
Fixpoint lookup {V : Type} (k : string) (d : list (string * V)) : option V :=
  match d with
  | [] => None
  | (k', v) :: d' => if String.eqb k k' then Some v else lookup k d'
  end.

Definition dict_get {V : Type} (d : list (string * V)) (k : string) (default : V) : V :=
  match lookup k d with Some v => v | None => default end.

(** Truthiness of a decoded JSON value ([not data]). *)
Definition truthy (v : json) : bool :=
  match v with
  | JNull => false
  | JBool b => b
  | JNum n => negb (n =? 0)%Z
  | JStr s => truthy_str s
  | JArr l => match l with [] => false | _ => true end
  | JObj l => match l with [] => false | _ => true end
  end.

Definition is_JStr (k : string) (v : json) : bool :=
  match v with JStr s => String.eqb k s | _ => false end.

(** [k in data] for a string [k]: key membership on a dict, element
    membership on a list, substring on a string, [TypeError] otherwise. *)
Definition py_in (k : string) (data : json) : result bool :=
  match data with
  | JObj d => Ok (match lookup k d with Some _ => true | None => false end)
  | JArr l => Ok (existsb (is_JStr k) l)
  | JStr s => Ok (str_contains k s)
  | JNull => Raise (TypeError "argument of type 'NoneType' is not iterable")
  | JBool _ => Raise (TypeError "argument of type 'bool' is not iterable")
  | JNum _ => Raise (TypeError "argument of type 'int' is not iterable")
  end.

(** ** Database models *)

Module Document.
(** A row of the [document] table. *)
Record row : Type := mk {
  id : Z;
  filename : string;
  upload_date : datetime;
  status : string;
  summary : option string;
  full_text : option string;
  model_used : option string
}.

Definition to_dict (self : row) : json :=
  JObj [("id", JNum (id self));
        ("filename", JStr (filename self));
        ("upload_date", JStr (strftime_date (upload_date self)));
        ("status", JStr (status self));
        ("summary", json_of_option (summary self));
        ("full_text", json_of_option (full_text self));
        ("model_used", json_of_option (model_used self))].
End Document.

Module HistoryEvent.
(** A row of the [history_event] table. *)
Record row : Type := mk {
  id : Z;
  event_type : string;
  document_name : string;
  timestamp : datetime
}.

Definition to_dict (self : row) : json :=
  JObj [("id", JNum (id self));
        ("event_type", JStr (event_type self));
        ("document_name", JStr (document_name self));
        ("timestamp", JStr (strftime_minute (timestamp self)))].
End HistoryEvent.

(** The store: both tables, rows in rowid order. *)
Record Database : Type := mk_db {
  documents : list Document.row;
  history_events : list HistoryEvent.row
}.

(** [db.create_all()] on a fresh file. *)
Definition empty_db : Database := mk_db [] [].

(** SQLite's rowid for an [INTEGER PRIMARY KEY] column: one more than the
    largest key in the table. *)
Definition next_id (ids : list Z) : Z := (1 + fold_right Z.max 0 ids)%Z.

(** ** The world outside the repository *)

(** A PyPDF2 page: what [page.extract_text()] does. *)
Record PageObject : Type := { extract_text : result string }.

(** A [genai.GenerativeModel] handle. *)
Record GenerativeModel : Type := { model_name : string }.

(** A generation response: what reading [response.text] does. *)
Record GenerateContentResponse : Type := { text : result string }.

(** One turn of a chat history: role and part. *)
Definition chat_turn : Type := (string * string)%type.

Record World : Type := {
  (** [os.getenv("GOOGLE_API_KEY")] *)
  getenv_GOOGLE_API_KEY : option string;
  (** [PyPDF2.PdfReader(stream).pages] *)
  PdfReader : list byte -> result (list PageObject);
  (** [genai.GenerativeModel(name)]: [Some e] when the constructor raises *)
  GenerativeModel_init : string -> option exn;
  (** [model.generate_content(prompt)] *)
  generate_content : GenerativeModel -> string -> result GenerateContentResponse;
  (** [model.start_chat(history=...).send_message(message)] *)
  send_message :
    GenerativeModel -> list chat_turn -> string -> result GenerateContentResponse;
  (** [datetime.utcnow()], by the number of readings taken so far *)
  utcnow : nat -> datetime;
  (** [str(v)] for a list or a dict decoded from JSON *)
  repr_container : json -> string
}.

(** ** Handler state: the store, the clock and the trace of effects *)

Inductive effect : Type :=
| InsertDocument (doc : Document.row)
| UpdateDocument (doc : Document.row)
| DeleteDocument (doc_id : Z)
| InsertHistoryEvent (e : HistoryEvent.row)
| GenerateContent (m : GenerativeModel) (prompt : string)
| SendMessage (m : GenerativeModel) (history : list chat_turn) (message : string).

Record State : Type := mk_state {
  db : Database;
  clock : nat;
  trace : list effect
}.

Definition initial_state : State := mk_state empty_db 0 [].

(** ** HTTP responses *)

Inductive Body : Type :=
| Json (v : json)
| ErrorPage.   (* the HTML page werkzeug renders for an aborted request *)

Record Response : Type := mk_response {
  status_code : Z;
  body : Body
}.

Definition jsonify (v : json) : Response := mk_response 200 (Json v).

(** [return jsonify(v), code]. *)
Definition with_status (r : Response) (code : Z) : Response :=
  mk_response code (body r).

Definition error_body (msg : string) : json := JObj [("error", JStr msg)].

(** [abort(404)]. *)
Definition not_found : Response := mk_response 404 ErrorPage.

(** What Flask answers when a view raises. *)
Definition internal_server_error : Response := mk_response 500 ErrorPage.

(** ** Helper functions *)

Definition dquote : string := String "034"%char EmptyString.

Definition allowed_models : list string := ["gemini-1.5-pro"; "gemini-1.5-flash"].

Definition str_in (x : string) (l : list string) : bool := existsb (String.eqb x) l.

(** [print(s)] on a UTF-8 [sys.stdout]: the exception it raises, if any. *)
Definition print (s : string) : option exn :=
  match encode_error s with
  | Some msg => Some (ValueError msg)
  | None => None
  end.

(** [get_gemini_model]: the credential check, then, inside the [try], the
    allow-list with its warning and its fallback, then the constructor.
    The warning formats the requested name before the fallback is taken;
    when it raises, the handler's own [print] formats the same name and
    its exception is the one that leaves the function.  A constructor
    failure is re-raised as a [ValueError] naming the (possibly
    substituted) model. *)
Definition get_gemini_model (w : World) (model_name : string) : result GenerativeModel :=
  match getenv_GOOGLE_API_KEY w with
  | None | Some EmptyString =>
      Raise (ValueError "GOOGLE_API_KEY is not set. Cannot initialize Gemini model.")
  | Some _ =>
      let failed (model_name : string) (e : exn) : result GenerativeModel :=
        Raise (ValueError
                 ("Failed to initialize Gemini model '" ++ model_name
                  ++ "'. Ensure API key is valid and model exists: "
                  ++ str_exn e)%string) in
      let construct (model_name : string) : result GenerativeModel :=
        match GenerativeModel_init w model_name with
        | None => Ok {| model_name := model_name |}
        | Some e => failed model_name e
        end in
      if negb (str_in model_name allowed_models) then
        match print ("Warning: Invalid model '" ++ model_name
                     ++ "' requested. Defaulting to 'gemini-1.5-flash'.")%string with
        | Some e =>
            match print ("Error initializing Gemini model '" ++ model_name
                         ++ "': " ++ str_exn e)%string with
            | Some e' => Raise e'
            | None => failed model_name e
            end
        | None => construct "gemini-1.5-flash"
        end
      else construct model_name
  end.

(** The generator expression of [extract_text_from_pdf]: a page is kept
    when its text is truthy; any raise aborts the whole iteration. *)
Fixpoint page_texts (pages : list PageObject) : result (list string) :=
  match pages with
  | [] => Ok []
  | page :: rest =>
      match extract_text page with
      | Raise e => Raise e
      | Ok t =>
          match page_texts rest with
          | Raise e => Raise e
          | Ok ts => Ok (if truthy_str t then t :: ts else ts)
          end
      end
  end.

(** [extract_text_from_pdf]: [None] exactly when something raised. *)
Definition extract_text_from_pdf (w : World) (file_stream : list byte) : option string :=
  match PdfReader w file_stream with
  | Raise _ => None
  | Ok pages =>
      match page_texts pages with
      | Raise _ => None
      | Ok ts => Some (join_empty ts)
      end
  end.

(** [db.session.add(row); db.session.commit()] for a history event. *)
Definition log_event (w : World) (event_type document_name : string) (st : State) : State :=
  let event :=
    HistoryEvent.mk (next_id (map HistoryEvent.id (history_events (db st))))
                    event_type document_name (utcnow w (clock st)) in
  mk_state (mk_db (documents (db st)) (history_events (db st) ++ [event]))
           (S (clock st))
           (trace st ++ [InsertHistoryEvent event]).

(** [db.session.add(Document(...)); db.session.commit()]; the object comes
    back with its key and its default [upload_date].  The INSERT is taken
    to succeed: the properties that depend on it for a text SQLite cannot
    encode say so in a hypothesis ([has_surrogate]). *)
Definition add_document (w : World) (filename status : string)
    (summary full_text model_used : option string) (st : State)
    : Document.row * State :=
  let doc :=
    Document.mk (next_id (map Document.id (documents (db st))))
                filename (utcnow w (clock st)) status summary full_text model_used in
  (doc,
   mk_state (mk_db (documents (db st) ++ [doc]) (history_events (db st)))
            (S (clock st))
            (trace st ++ [InsertDocument doc])).

Definition set_status_summary (new_status : string) (new_summary : option string)
    (d : Document.row) : Document.row :=
  Document.mk (Document.id d) (Document.filename d) (Document.upload_date d)
              new_status new_summary (Document.full_text d) (Document.model_used d).

(** The [UPDATE document SET summary, status WHERE id = ?] flushed for the
    dirty object [doc]. *)
Definition update_document (doc : Document.row) (st : State) : State :=
  mk_state
    (mk_db (map (fun d => if (Document.id d =? Document.id doc)%Z
                          then set_status_summary (Document.status doc)
                                                  (Document.summary doc) d
                          else d)
                (documents (db st)))
           (history_events (db st)))
    (clock st)
    (trace st ++ [UpdateDocument doc]).

(** [db.session.delete(doc); db.session.commit()]. *)
Definition remove_document (doc_id : Z) (st : State) : State :=
  mk_state
    (mk_db (filter (fun d => negb (Document.id d =? doc_id)%Z) (documents (db st)))
           (history_events (db st)))
    (clock st)
    (trace st ++ [DeleteDocument doc_id]).

(** The largest key SQLite holds: 2^63 - 1. *)
Definition sqlite_max_integer : Z := 9223372036854775807.

(** [Document.query.get(doc_id)]: binding a key SQLite cannot hold raises
    before any row is looked at. *)
Definition get_document (doc_id : Z) (d : Database) : result (option Document.row) :=
  if (sqlite_max_integer <? doc_id)%Z then
    Raise (OverflowError "Python int too large to convert to SQLite INTEGER")
  else Ok (find (fun r => (Document.id r =? doc_id)%Z) (documents d)).

Definition _build_analysis_prompt (document_text user_prompt : string) : string :=
  ("
**Role:** You are an expert legal analyst AI specializing in **Indian Law**.
**Task:** Analyze the provided legal document from the perspective of **Indian law**. Your analysis must be clear, structured, and reference specific clauses. Cite relevant Indian statutes where applicable.

---
**User's Specific Request:** "
   ++ dquote
   ++ user_prompt
   ++ dquote
   ++ "
---
**Document Text:**
"
   ++ document_text
   ++ "
---
**Your Structured Analysis (Indian Legal Context):**

### **1.Summary**
*(1.Provide a 1-4 sentence overview of the document's core purpose with key details and risks,
* **Potential Risks: In1-3 sentence** *(Identify clauses on payment, penalties, Identify clauses on indemnification)*
* **General Advice:** *(e.g., "
   ++ dquote
   ++ "Consult a lawyer practicing in India."
   ++ dquote
   ++ ")*

### **2. Key Details at a Glance**
| Detail | Information Found (with Clause Reference) |
| :--- | :--- |
| **Governing Law** | *(e.g., Laws of India, Jurisdiction in Delhi (Clause 15.1))* |
| **Contract Term** | *(e.g., 24 months from effective date (Section 3))* |
| **Payment Amount**| *(e.g., ₹50,000 INR per month (Annexure A))* |
| **Notice Period** | *(e.g., 60 days for termination (Clause 12.2))* |

### **3. Key Parties & Their Roles**
* **Party A:** *(Identify the party and their role.)*
* **Party B:** *(Identify the other party and their role.)*

### **4. Key Clauses & Their Implications (under Indian Law)**
* **[Clause Name]:** *(Explain the meaning and impact of a major clause. Cite the source.)*

### **5. Potential Risks & Red Flags 🚩 (Indian Context)**
* **Financial Risk:** *(Identify clauses on payment, penalties. Cite the source.)*
* **Legal/Liability Risk:** *(Identify clauses on indemnification, liability. Cite the source.)*

### **6. Dispute Resolution (Arbitration / Court Jurisdiction)**
* *(Explain how disputes are resolved. Cite Indian law, e.g., Arbitration & Conciliation Act, 1996.)*

### **7. Confidentiality & Intellectual Property**
* *(Highlight clauses on confidentiality and IP ownership. Note who owns the IP.)*

### **8. Compliance & Regulatory Requirements (Indian Laws)**
* *(Note compliance obligations with Indian laws like the Companies Act, 2013; Labour Laws; or the DPDP Act, 2023, if applicable.)*

### **9. Actionable Next Steps (Prioritized)**
1.  **Immediate Action:** *(Suggest the most critical next step.)*
2.  **Recommendation:** *(Suggest an important action.)*
3.  **General Advice:** *(e.g., "
   ++ dquote
   ++ "Consult a lawyer practicing in India."
   ++ dquote
   ++ ")*
")%string.

Definition _build_qa_prompt (document_text question : string) : string :=
  ("
**Context:** You are an AI assistant answering questions about the following legal document. Your answers must be based *only* on the information contained within this document. If the answer is not in the document, say so.
**Document Text:**
---
"
   ++ document_text
   ++ "
---
**User's Question:** "
   ++ dquote
   ++ question
   ++ dquote
   ++ "
**Your Answer:**
")%string.

(** ** Requests *)

(** A werkzeug [FileStorage]; an absent filename is the empty string. *)
Record FileStorage : Type := {
  filename : string;
  stream : list byte
}.

(** A multipart request: [request.files] and [request.form]. *)
Record FormRequest : Type := {
  files : list (string * FileStorage);
  form : list (string * string)
}.

(** ** API routes *)

(** [not document_text or not document_text.strip()]. *)
Definition no_text (document_text : option string) : bool :=
  match document_text with
  | None => true
  | Some t => negb (truthy_str t) || negb (truthy_str (strip t))
  end.

(** The first three statements of the [try] block of [/simplify]: the
    model handle, the generation call, the read of [response.text]. *)
Definition generate_summary (w : World) (selected_model_name full_prompt : string)
    (st : State) : result string * State :=
  match get_gemini_model w selected_model_name with
  | Raise e => (Raise e, st)
  | Ok model_instance =>
      let st := mk_state (db st) (clock st)
                         (trace st ++ [GenerateContent model_instance full_prompt]) in
      match generate_content w model_instance full_prompt with
      | Raise e => (Raise e, st)
      | Ok response => (text response, st)
      end
  end.

Definition simplify_document (w : World) (request : FormRequest) (st : State)
    : Response * State :=
  match lookup "pdfFile" (files request) with
  | None => (with_status (jsonify (error_body "No PDF file provided.")) 400, st)
  | Some pdf_file =>
      if negb (truthy_str (filename pdf_file)) then
        (with_status (jsonify (error_body "No selected file.")) 400, st)
      else
        let selected_model_name := dict_get (form request) "model" "gemini-1.5-flash" in
        let st := log_event w "UPLOAD_SUCCESS" (filename pdf_file) st in
        let document_text := extract_text_from_pdf w (stream pdf_file) in
        if no_text document_text then
          let '(failed_doc, st) :=
            add_document w (filename pdf_file) "Analysis Failed"
                         (Some "Could not extract text from PDF.") None
                         (Some selected_model_name) st in
          let st := log_event w "TEXT_EXTRACT_FAIL" (filename pdf_file) st in
          (with_status (jsonify (error_body "Could not extract text from the PDF.")) 400,
           st)
        else
          let document_text :=
            match document_text with Some t => t | None => EmptyString end in
          let '(new_doc, st) :=
            add_document w (filename pdf_file) "In Progress" None
                         (Some document_text) (Some selected_model_name) st in
          let prompt_from_user :=
            dict_get (form request) "prompt" "Provide a comprehensive analysis." in
          let full_prompt := _build_analysis_prompt document_text prompt_from_user in
          match generate_summary w selected_model_name full_prompt st with
          | (Ok response_text, st) =>
              let new_doc := set_status_summary "Analyzed" (Some response_text) new_doc in
              let st := update_document new_doc st in
              let st := log_event w "ANALYSIS_SUCCESS" (Document.filename new_doc) st in
              (jsonify (JObj [("summary", json_of_option (Document.summary new_doc));
                              ("document_text", JStr document_text)]),
               st)
          | (Raise (ValueError msg), st) =>
              let new_doc :=
                set_status_summary "Analysis Failed"
                                   (Some ("API Error: " ++ msg)%string) new_doc in
              let st := update_document new_doc st in
              let st := log_event w "ANALYSIS_FAIL" (Document.filename new_doc) st in
              (with_status
                 (jsonify (error_body ("AI model configuration error: " ++ msg)%string))
                 500,
               st)
          | (Raise e, st) =>
              let new_doc :=
                set_status_summary "Analysis Failed"
                                   (Some ("Analysis failed: " ++ str_exn e)%string) new_doc in
              let st := update_document new_doc st in
              let st := log_event w "ANALYSIS_FAIL" (Document.filename new_doc) st in
              (with_status
                 (jsonify (error_body
                    "Failed to get a response from the AI model. Check server logs for details."))
                 500,
               st)
          end
  end.

(** [str(v)], as an f-string interpolates a decoded JSON value. *)
Definition py_str (w : World) (v : json) : string :=
  match v with
  | JStr s => s
  | JNull => "None"
  | JBool true => "True"
  | JBool false => "False"
  | JNum n => NilZero.string_of_int (Z.to_int n)
  | JArr _ | JObj _ => repr_container w v
  end.

(** The requested model as [get_gemini_model] sees it.  A value that is
    not a string is in no list of strings; the empty name stands for it. *)
Definition model_name_of (v : json) : string :=
  match v with JStr s => s | _ => EmptyString end.

(** [not data or 'document_text' not in data or 'question' not in data],
    with Python's short-circuit evaluation. *)
Definition missing_fields (data : json) : result bool :=
  if negb (truthy data) then Ok true
  else match py_in "document_text" data with
       | Raise e => Raise e
       | Ok false => Ok true
       | Ok true =>
           match py_in "question" data with
           | Raise e => Raise e
           | Ok present => Ok (negb present)
           end
       end.

(** The [try] block of [/ask]. *)
Definition chat_answer (w : World) (selected_model_name document_text qa_prompt : string)
    (st : State) : result string * State :=
  match get_gemini_model w selected_model_name with
  | Raise e => (Raise e, st)
  | Ok model_instance =>
      let history :=
        [("user",
          ("Here is the legal document for context:" ++ String "010" (String "010" document_text))%string);
         ("model", "Understood. I have the document context.")] in
      let st := mk_state (db st) (clock st)
                         (trace st ++ [SendMessage model_instance history qa_prompt]) in
      match send_message w model_instance history qa_prompt with
      | Raise e => (Raise e, st)
      | Ok response => (text response, st)
      end
  end.

Definition ask_question (w : World) (data : json) (st : State) : Response * State :=
  match missing_fields data with
  | Raise _ => (internal_server_error, st)
  | Ok true =>
      (with_status
         (jsonify (error_body "Missing document_text or question in request.")) 400,
       st)
  | Ok false =>
      match data with
      | JObj d =>
          let selected_model_name :=
            model_name_of (dict_get d "model" (JStr "gemini-1.5-flash")) in
          let document_text := py_str w (dict_get d "document_text" JNull) in
          let qa_prompt :=
            _build_qa_prompt document_text (py_str w (dict_get d "question" JNull)) in
          match chat_answer w selected_model_name document_text qa_prompt st with
          | (Ok answer, st) => (jsonify (JObj [("answer", JStr answer)]), st)
          | (Raise (ValueError msg), st) =>
              (with_status
                 (jsonify (error_body
                    ("AI model configuration error for chat: " ++ msg)%string))
                 500,
               st)
          | (Raise _, st) =>
              (with_status
                 (jsonify (error_body
                    "Failed to get a response for your question. Check server logs for details."))
                 500,
               st)
          end
      | _ =>
          (* [data.get] on a list or a string: AttributeError, outside the try *)
          (internal_server_error, st)
      end
  end.

(** [ORDER BY key DESC]: rows are inserted, last row first, in front of the
    first row that is not newer. *)
Fixpoint insert_desc {A : Type} (key : A -> datetime) (x : A) (l : list A) : list A :=
  match l with
  | [] => [x]
  | y :: l' =>
      if datetime_geb (key x) (key y) then x :: l
      else y :: insert_desc key x l'
  end.

Definition order_by_desc {A : Type} (key : A -> datetime) (rows : list A) : list A :=
  fold_right (insert_desc key) [] rows.

Definition get_documents (st : State) : Response * State :=
  let documents := order_by_desc Document.upload_date (documents (db st)) in
  (jsonify (JArr (map Document.to_dict documents)), st).

Definition get_history (st : State) : Response * State :=
  let events := order_by_desc HistoryEvent.timestamp (history_events (db st)) in
  (jsonify (JArr (map HistoryEvent.to_dict events)), st).

Definition delete_document (w : World) (doc_id : Z) (st : State) : Response * State :=
  if (doc_id <? 0)%Z then
    (* [<int:doc_id>] matches digits only: no route, 404 *)
    (not_found, st)
  else
    match get_document doc_id (db st) with
    | Raise _ => (internal_server_error, st)
    | Ok None => (not_found, st)
    | Ok (Some doc) =>
        let st := remove_document doc_id st in
        let st := log_event w "DELETE_DOCUMENT" (Document.filename doc) st in
        (jsonify (JObj [("message", JStr "Document deleted successfully.")]), st)
    end.

(** ** The application as a transition system *)

Inductive Request : Type :=
| PostSimplify (request : FormRequest)
| PostAsk (data : json)
| GetDocuments
| GetHistory
| DeleteDocumentById (doc_id : Z).

Definition handle (w : World) (r : Request) (st : State) : Response * State :=
  match r with
  | PostSimplify request => simplify_document w request st
  | PostAsk data => ask_question w data st
  | GetDocuments => get_documents st
  | GetHistory => get_history st
  | DeleteDocumentById doc_id => delete_document w doc_id st
  end.

(** The states the server can be in: the fresh store, then any number of
    requests, each served in whatever world it happens in. *)
Inductive reachable : State -> Prop :=
| reachable_init : reachable initial_state
| reachable_step : forall w r st,
    reachable st -> reachable (snd (handle w r st)).

(** ** Vocabulary of the specification *)


(** A status transition of a Document: the object as written, and whether
    the write created the row. *)
Record transition : Type := mk_transition {
  created : bool;
  written : Document.row
}.

(** The status transitions a trace of effects contains, in order. *)
Fixpoint status_transitions (tr : list effect) : list transition :=
  match tr with
  | [] => []
  | InsertDocument doc :: tr' => mk_transition true doc :: status_transitions tr'
  | UpdateDocument doc :: tr' => mk_transition false doc :: status_transitions tr'
  | _ :: tr' => status_transitions tr'
  end.

(** The history events a trace of effects contains, in order. *)
Fixpoint logged_events (tr : list effect) : list HistoryEvent.row :=
  match tr with
  | [] => []
  | InsertHistoryEvent e :: tr' => e :: logged_events tr'
  | _ :: tr' => logged_events tr'
  end.

(** The generation calls a trace of effects contains: the models invoked. *)
Fixpoint invoked_models (tr : list effect) : list string :=
  match tr with
  | [] => []
  | GenerateContent m _ :: tr' => model_name m :: invoked_models tr'
  | _ :: tr' => invoked_models tr'
  end.

(** The documents a trace of effects inserts. *)
Fixpoint inserted_documents (tr : list effect) : list Document.row :=
  match tr with
  | [] => []
  | InsertDocument doc :: tr' => doc :: inserted_documents tr'
  | _ :: tr' => inserted_documents tr'
  end.

Definition newer (a b : datetime) : Prop := datetime_gtb a b = true.
Definition not_older (a b : datetime) : Prop := datetime_geb a b = true.

(** The text of a page that did not raise. *)
Definition page_text (page : PageObject) : string :=
  match extract_text page with Ok t => t | Raise _ => EmptyString end.

Definition page_raises (page : PageObject) : Prop :=
  exists e, extract_text page = Raise e.

(** The reading of the Text Extractor's contract under which a returned
    string is never blank. *)
Definition extractor_never_blank : Prop :=
  forall w file_stream t,
    extract_text_from_pdf w file_stream = Some t -> strip t <> EmptyString.

(** The reading of the listing contract under which timestamps strictly
    decrease along every listing. *)
Definition listings_strictly_descending : Prop :=
  forall st, reachable st ->
    StronglySorted (fun a b => newer (Document.upload_date a) (Document.upload_date b))
                   (order_by_desc Document.upload_date (documents (db st)))
    /\ StronglySorted (fun a b => newer (HistoryEvent.timestamp a) (HistoryEvent.timestamp b))
                      (order_by_desc HistoryEvent.timestamp (history_events (db st))).

(** ** Sample worlds and requests *)

Definition new_year : datetime := mk_datetime 2025 1 1 9 30 0 0.

Definition canned (s : string) : result GenerateContentResponse :=
  Ok {| text := Ok s |}.

(** A world with a credential, a one-page PDF reader, a model that answers,
    and a clock that advances by one second per reading. *)
Definition office_world : World := {|
  getenv_GOOGLE_API_KEY := Some "key";
  PdfReader := fun _ => Ok [ {| extract_text := Ok "Lease between A and B." |} ];
  GenerativeModel_init := fun _ => None;
  generate_content := fun _ _ => canned "A lease.";
  send_message := fun _ _ _ => canned "Party A is the lessor.";
  utcnow := fun n => mk_datetime 2025 1 1 9 30 n 0;
  repr_container := fun _ => "[]"
|}.

(** The same world reading a scanned PDF: one page, no text layer, and a
    clock too coarse to tell two readings of one request apart. *)
Definition scanned_world : World := {|
  getenv_GOOGLE_API_KEY := Some "key";
  PdfReader := fun _ => Ok [ {| extract_text := Ok EmptyString |} ];
  GenerativeModel_init := fun _ => None;
  generate_content := fun _ _ => canned "A lease.";
  send_message := fun _ _ _ => canned "Party A is the lessor.";
  utcnow := fun _ => new_year;
  repr_container := fun _ => "[]"
|}.


(** [office_world] with a generation service that is down. *)
Definition offline_world : World := {|
  getenv_GOOGLE_API_KEY := Some "key";
  PdfReader := PdfReader office_world;
  GenerativeModel_init := fun _ => None;
  generate_content := fun _ _ => Raise (Exception "503 unavailable");
  send_message := fun _ _ _ => Raise (Exception "503 unavailable");
  utcnow := utcnow office_world;
  repr_container := fun _ => "[]"
|}.

Definition lease_pdf : FileStorage := {| filename := "lease.pdf"; stream := [] |}.

(** An upload of [lease.pdf] asking for model [m]. *)
Definition upload_with_model (m : string) : FormRequest :=
  {| files := [("pdfFile", lease_pdf)]; form := [("model", m)] |}.

Definition upload : FormRequest :=
  {| files := [("pdfFile", lease_pdf)]; form := [] |}.

(** A question with both fields present. *)
Definition question_body : json :=
  JObj [("document_text", JStr "Lease between A and B.");
        ("question", JStr "Who is the lessor?")].

(** A JSON array: a body with no [document_text] and no [question] field. *)
Definition array_body : json := JArr [JStr "document_text"; JStr "question"].

(** Every byte of [s] is ASCII. *)
Definition ascii_only (s : string) : bool :=
  forallb (fun c => nat_of_ascii c <? 128) (list_ascii_of_string s).

(** A text made of whitespace characters only. *)
Definition blank (t : string) : Prop :=
  exists chars,
    Forall (fun ch => In ch whitespace) chars /\ t = join_empty chars.

(** U+2003 EM SPACE. *)
Definition em_space : string :=
  String "226" (String "128" (String "131" EmptyString)).

(** The lone surrogate U+D800, as JSON's ["\ud800"] decodes. *)
Definition lone_surrogate : string :=
  String "237" (String "160" (String "128" EmptyString)).

(** A question with both fields and a model name made of a lone surrogate. *)
Definition surrogate_model_body : json :=
  JObj [("document_text", JStr "Lease between A and B.");
        ("question", JStr "Who is the lessor?");
        ("model", JStr lone_surrogate)].

(** [office_world] reading a PDF whose page holds an EM SPACE and a line
    feed, and nothing else. *)
Definition em_space_world : World := {|
  getenv_GOOGLE_API_KEY := Some "key";
  PdfReader := fun _ => Ok [ {| extract_text := Ok (em_space ++ String "010" EmptyString)%string |} ];
  GenerativeModel_init := fun _ => None;
  generate_content := fun _ _ => canned "A lease.";
  send_message := fun _ _ _ => canned "Party A is the lessor.";
  utcnow := utcnow office_world;
  repr_container := fun _ => "[]"
|}.


(** The first key SQLite cannot hold: 2^63. *)
Definition first_unstorable_id : Z := 9223372036854775808.

(** The store after one upload of a scanned PDF served in [scanned_world]. *)
Definition after_scanned_upload : State :=
  snd (handle scanned_world (PostSimplify upload) initial_state).

(** ** Vocabulary of the further properties *)

(** The statuses a Document is left in when a request has been served. *)
Definition terminal_statuses : list string := ["Analyzed"; "Analysis Failed"].

(** The event types that close an upload. *)
Definition terminal_event_types : list string :=
  ["TEXT_EXTRACT_FAIL"; "ANALYSIS_SUCCESS"; "ANALYSIS_FAIL"].

(** How many events of type [ty] a list of events holds. *)
Definition count_events (ty : string) (events : list HistoryEvent.row) : nat :=
  List.length (filter (fun e => String.eqb (HistoryEvent.event_type e) ty) events).



(** [office_world] with a constructor that rejects every model. *)
Definition broken_sdk_world : World := {|
  getenv_GOOGLE_API_KEY := Some "key";
  PdfReader := PdfReader office_world;
  GenerativeModel_init := fun _ => Some (Exception "bad transport");
  generate_content := fun _ _ => canned "A lease.";
  send_message := fun _ _ _ => canned "Party A is the lessor.";
  utcnow := utcnow office_world;
  repr_container := fun _ => "[]"
|}.

(** An upload without the [pdfFile] part. *)
Definition upload_without_file : FormRequest :=
  {| files := []; form := [("model", "gemini-1.5-pro")] |}.

(** A question whose two fields are present and [null]. *)
Definition null_fields_body : json :=
  JObj [("document_text", JNull); ("question", JNull)].



(** The store after an analysed upload and the deletion of its Document. *)
Definition after_upload_and_delete : State :=
  snd (handle office_world (DeleteDocumentById 1)
         (snd (handle office_world (PostSimplify upload) initial_state))).

(** * Properties *)

(** ** The order on [datetime] *)

Lemma lex_compare_antisym : forall a b,
  lex_compare b a = CompOpp (lex_compare a b).
Proof.
  induction a as [|x a IH]; destruct b as [|y b]; simpl; try reflexivity.
  rewrite (Nat.compare_antisym x y).
  destruct (Nat.compare x y); simpl; auto.
Qed.

Lemma lex_compare_ge_trans : forall a b c,
  lex_compare a b <> Lt -> lex_compare b c <> Lt -> lex_compare a c <> Lt.
Proof.
  induction a as [|x a IH]; destruct b as [|y b]; destruct c as [|z c];
    simpl; try congruence.
  destruct (Nat.compare_spec x y), (Nat.compare_spec y z),
           (Nat.compare_spec x z); subst; try congruence; try lia.
  apply IH.
Qed.

Lemma not_older_total : forall a b, datetime_geb a b = false -> not_older b a.
Proof.
  unfold not_older, datetime_geb, datetime_compare. intros a b.
  rewrite (lex_compare_antisym (datetime_fields a) (datetime_fields b)).
  destruct (lex_compare (datetime_fields a) (datetime_fields b));
    simpl; congruence.
Qed.

Lemma not_older_trans : forall a b c,
  not_older a b -> not_older b c -> not_older a c.
Proof.
  unfold not_older, datetime_geb, datetime_compare. intros a b c Hab Hbc.
  assert (H : lex_compare (datetime_fields a) (datetime_fields c) <> Lt).
  { apply lex_compare_ge_trans with (b := datetime_fields b).
    - destruct (lex_compare (datetime_fields a) (datetime_fields b)); congruence.
    - destruct (lex_compare (datetime_fields b) (datetime_fields c)); congruence. }
  destruct (lex_compare (datetime_fields a) (datetime_fields c)); congruence.
Qed.

Lemma lex_compare_refl : forall a, lex_compare a a = Eq.
Proof.
  induction a as [|x a IH]; simpl; [reflexivity|].
  rewrite Nat.compare_refl. exact IH.
Qed.

Lemma newer_irrefl : forall a, ~ newer a a.
Proof.
  unfold newer, datetime_gtb, datetime_compare. intros a.
  rewrite lex_compare_refl. discriminate.
Qed.

(** ** [ORDER BY ... DESC] *)

Section OrderBy.
Context {A : Type} (key : A -> datetime).

Let ge (a b : A) : Prop := not_older (key a) (key b).

Lemma insert_desc_perm : forall x l, Permutation (insert_desc key x l) (x :: l).
Proof.
  induction l as [|y l IH]; simpl; [apply Permutation_refl|].
  destruct (datetime_geb (key x) (key y)); [apply Permutation_refl|].
  eapply perm_trans; [apply perm_skip, IH | apply perm_swap].
Qed.

Lemma order_by_desc_perm : forall l, Permutation (order_by_desc key l) l.
Proof.
  induction l as [|x l IH]; simpl; [constructor|].
  eapply perm_trans; [apply insert_desc_perm | apply perm_skip, IH].
Qed.

Lemma insert_desc_hd : forall x y l,
  ge y x -> HdRel ge y l -> HdRel ge y (insert_desc key x l).
Proof.
  intros x y l Hyx Hl. destruct l as [|z l]; simpl.
  - constructor. exact Hyx.
  - destruct (datetime_geb (key x) (key z)); constructor; auto.
    inversion Hl; assumption.
Qed.

Lemma insert_desc_sorted : forall x l,
  Sorted ge l -> Sorted ge (insert_desc key x l).
Proof.
  induction l as [|y l IH]; simpl; intros Hs.
  - repeat constructor.
  - destruct (datetime_geb (key x) (key y)) eqn:E.
    + constructor; [exact Hs | constructor; exact E].
    + inversion Hs; subst. constructor.
      * apply IH; assumption.
      * apply insert_desc_hd; [apply not_older_total; exact E | assumption].
Qed.

Lemma order_by_desc_sorted : forall l, Sorted ge (order_by_desc key l).
Proof.
  induction l as [|x l IH]; simpl; [constructor|].
  apply insert_desc_sorted, IH.
Qed.

Lemma order_by_desc_strongly_sorted : forall l,
  StronglySorted (fun a b => not_older (key a) (key b)) (order_by_desc key l).
Proof.
  intros l. apply Sorted_StronglySorted.
  - intros a b c. apply not_older_trans.
  - apply order_by_desc_sorted.
Qed.

Lemma order_by_desc_In : forall x l, In x (order_by_desc key l) <-> In x l.
Proof.
  intros x l; split; apply Permutation_in;
    [ | apply Permutation_sym ]; apply order_by_desc_perm.
Qed.
End OrderBy.

(** ** Listings *)

(** C9 (as amended).  Every [/documents] response lists all Document rows
    and every [/history] response lists all HistoryEvent rows, each in
    non-increasing order of its timestamp: no row is followed by a newer
    one, and rows with equal timestamps may follow one another.  Neither
    handler changes the state. *)
Theorem listings_newest_first : forall st,
  exists docs events,
    get_documents st = (jsonify (JArr (map Document.to_dict docs)), st)
    /\ Permutation docs (documents (db st))
    /\ StronglySorted
         (fun a b => not_older (Document.upload_date a) (Document.upload_date b)) docs
    /\ get_history st = (jsonify (JArr (map HistoryEvent.to_dict events)), st)
    /\ Permutation events (history_events (db st))
    /\ StronglySorted
         (fun a b => not_older (HistoryEvent.timestamp a) (HistoryEvent.timestamp b))
         events.
Proof.
  intros st.
  exists (order_by_desc Document.upload_date (documents (db st))),
         (order_by_desc HistoryEvent.timestamp (history_events (db st))).
  repeat split.
  - apply order_by_desc_perm.
  - apply order_by_desc_strongly_sorted.
  - apply order_by_desc_perm.
  - apply order_by_desc_strongly_sorted.
Qed.

(** C9, the claim as stated, fails.  One upload of a scanned PDF logs
    UPLOAD_SUCCESS and TEXT_EXTRACT_FAIL; when the clock returns the same
    reading for both, [/history] lists two events with one timestamp, so
    the listing is not strictly descending. *)
Lemma listing_with_equal_timestamps :
  reachable after_scanned_upload
  /\ (exists e1 e2,
        order_by_desc HistoryEvent.timestamp (history_events (db after_scanned_upload))
        = [e1; e2]
        /\ HistoryEvent.event_type e1 = "UPLOAD_SUCCESS"
        /\ HistoryEvent.event_type e2 = "TEXT_EXTRACT_FAIL"
        /\ HistoryEvent.timestamp e1 = HistoryEvent.timestamp e2)
  /\ ~ listings_strictly_descending.
Proof.
  assert (R : reachable after_scanned_upload) by (apply reachable_step; constructor).
  split; [exact R|]. split.
  - eexists _, _. cbv. repeat split.
  - intros H. destruct (H _ R) as [_ Hs]. cbv in Hs.
    inversion Hs as [|a l _ Hall]; subst.
    inversion Hall as [|b l' Hab _]; subst.
    discriminate Hab.
Qed.

(** ** Text Extractor *)

Lemma page_texts_spec : forall pages,
  match page_texts pages with
  | Ok ts =>
      (forall page, In page pages -> ~ page_raises page)
      /\ ts = filter truthy_str (map page_text pages)
  | Raise _ => exists page, In page pages /\ page_raises page
  end.
Proof.
  induction pages as [|page rest IH]; simpl.
  - split; [intros ? []| reflexivity].
  - destruct (extract_text page) as [t|e] eqn:E.
    + assert (Ht : page_text page = t) by (unfold page_text; rewrite E; reflexivity).
      destruct (page_texts rest) as [ts|e'].
      * destruct IH as [Hno Hts]. split.
        -- intros p [<-|Hp]; [intros [e He]; congruence | auto].
        -- rewrite Hts, Ht. destruct (truthy_str t); reflexivity.
      * destruct IH as [p [Hp Hr]]. exists p. auto.
    + exists page. split; [left; reflexivity | exists e; exact E].
Qed.

Lemma strip_empty_of_falsy : forall t, truthy_str t = false -> strip t = EmptyString.
Proof. intros [|c t]; simpl; [reflexivity | discriminate]. Qed.

Lemma no_text_spec : forall r,
  no_text r = true <-> r = None \/ exists t, r = Some t /\ strip t = EmptyString.
Proof.
  intros [t|]; simpl.
  - split.
    + intros H. right. exists t. split; [reflexivity|].
      apply orb_true_iff in H. destruct H as [H|H]; apply negb_true_iff in H.
      * apply strip_empty_of_falsy; exact H.
      * destruct (strip t); [reflexivity | discriminate].
    + intros [H|[t' [H Hs]]]; [discriminate|]. inversion H; subst t'.
      rewrite Hs. simpl. apply orb_true_r.
  - split; auto.
Qed.

(** C5 (as amended).  The Text Extractor returns the absent value exactly
    when the reader or the extraction of some page raises; otherwise it
    returns the concatenation, in page order, of the texts of the pages
    whose text is non-empty, a string that may be empty or made of
    whitespace only.  It is the guard of [/simplify] that treats both the
    absent value and a blank string as an extraction failure. *)
Theorem extract_text_from_pdf_contract : forall w file_stream,
  (extract_text_from_pdf w file_stream = None <->
     (exists e, PdfReader w file_stream = Raise e)
     \/ (exists pages page,
           PdfReader w file_stream = Ok pages /\ In page pages /\ page_raises page))
  /\ (forall pages,
        PdfReader w file_stream = Ok pages ->
        (forall page, In page pages -> ~ page_raises page) ->
        extract_text_from_pdf w file_stream
        = Some (join_empty (filter truthy_str (map page_text pages))))
  /\ (no_text (extract_text_from_pdf w file_stream) = true <->
        extract_text_from_pdf w file_stream = None
        \/ exists t, extract_text_from_pdf w file_stream = Some t
                     /\ strip t = EmptyString).
Proof.
  intros w file_stream. split; [|split].
  - unfold extract_text_from_pdf.
    destruct (PdfReader w file_stream) as [pages|e].
    + pose proof (page_texts_spec pages) as S.
      destruct (page_texts pages) as [ts|e'].
      * split; [discriminate|]. destruct S as [Hno _].
        intros [[e He]|[ps [p [Hps [Hin Hr]]]]]; [discriminate|].
        inversion Hps; subst ps. exfalso. exact (Hno p Hin Hr).
      * split; [|reflexivity]. intros _. right.
        destruct S as [p [Hin Hr]]. exists pages, p. auto.
    + split; [|reflexivity]. intros _. left. exists e. reflexivity.
  - intros pages Hr Hno. unfold extract_text_from_pdf. rewrite Hr.
    pose proof (page_texts_spec pages) as S.
    destruct (page_texts pages) as [ts|e'].
    + destruct S as [_ ->]. reflexivity.
    + destruct S as [p [Hin Hp]]. exfalso. exact (Hno p Hin Hp).
  - apply no_text_spec.
Qed.

(** C5, the claim as stated, fails.  A scanned PDF has a page without a
    text layer: nothing raises, no page text is kept, and the extractor
    returns the empty string, not the absent value. *)
Lemma extractor_returns_empty_string :
  extract_text_from_pdf scanned_world (stream lease_pdf) = Some EmptyString
  /\ strip EmptyString = EmptyString
  /\ ~ extractor_never_blank.
Proof.
  split; [reflexivity|]. split; [reflexivity|].
  intros H. apply (H scanned_world (stream lease_pdf) EmptyString); reflexivity.
Qed.

(** ** Model Gateway *)

Lemma str_in_spec : forall x l, str_in x l = true <-> In x l.
Proof.
  intros x l. unfold str_in. rewrite existsb_exists. split.
  - intros [y [Hy E]]. apply String.eqb_eq in E. subst. exact Hy.
  - intros H. exists x. split; [exact H | apply String.eqb_refl].
Qed.

Lemma str_in_false : forall x l, ~ In x l -> str_in x l = false.
Proof.
  intros x l H. destruct (str_in x l) eqn:E; [|reflexivity].
  apply str_in_spec in E. contradiction.
Qed.

(** *** What [print] accepts *)

Lemma surrogate_at_head_ascii : forall c s,
  (nat_of_ascii c <? 128) = true -> surrogate_at_head (String c s) = None.
Proof.
  intros c s H. apply Nat.ltb_lt in H. unfold surrogate_at_head.
  destruct s as [|b [|d r]]; try reflexivity.
  destruct (Nat.eqb_spec (nat_of_ascii c) 237) as [E|E]; [lia | reflexivity].
Qed.

Lemma first_surrogate_idx : forall s i j,
  first_surrogate i s = None -> first_surrogate j s = None.
Proof.
  induction s as [|c s IH]; intros i j H; [reflexivity|].
  cbn [first_surrogate] in *. destruct (surrogate_at_head (String c s)); [discriminate|].
  eapply IH. exact H.
Qed.

Lemma first_surrogate_ascii : forall s i,
  ascii_only s = true -> first_surrogate i s = None.
Proof.
  induction s as [|c s IH]; intros i H; [reflexivity|].
  unfold ascii_only in H. simpl in H. apply andb_true_iff in H. destruct H as [Hc Hs].
  cbn [first_surrogate]. rewrite (surrogate_at_head_ascii c s Hc). apply IH. exact Hs.
Qed.

Lemma surrogate_at_head_app : forall s q,
  ascii_only q = true ->
  surrogate_at_head s = None -> surrogate_at_head (s ++ q) = None.
Proof.
  intros s q Hq H.
  assert (Hhd : forall c q', q = String c q' -> nat_of_ascii c < 128).
  { intros c q' ->. unfold ascii_only in Hq. simpl in Hq.
    apply andb_true_iff in Hq. destruct Hq as [Hc _]. apply Nat.ltb_lt. exact Hc. }
  destruct s as [|a [|b [|d r]]]; cbn [append].
  - destruct q as [|c q']; [reflexivity|].
    apply surrogate_at_head_ascii. apply Nat.ltb_lt. eapply Hhd. reflexivity.
  - destruct q as [|c [|c' q']]; try reflexivity.
    pose proof (Hhd c _ eq_refl) as Hc. unfold surrogate_at_head.
    assert (F : (160 <=? nat_of_ascii c) = false) by (apply Nat.leb_gt; lia).
    rewrite F, andb_false_r. reflexivity.
  - destruct q as [|c q']; [reflexivity|].
    pose proof (Hhd c _ eq_refl) as Hc. unfold surrogate_at_head, is_continuation.
    assert (F : (128 <=? nat_of_ascii c) = false) by (apply Nat.leb_gt; lia).
    rewrite F. cbn [andb]. rewrite andb_false_r. reflexivity.
  - exact H.
Qed.

Lemma first_surrogate_app : forall s q i,
  ascii_only q = true ->
  first_surrogate i s = None -> first_surrogate i (s ++ q) = None.
Proof.
  induction s as [|c s IH]; intros q i Hq H.
  - apply first_surrogate_ascii. exact Hq.
  - change (String c s ++ q)%string with (String c (s ++ q)%string).
    cbn [first_surrogate] in *.
    destruct (surrogate_at_head (String c s)) eqn:E; [discriminate|].
    change (String c (s ++ q)%string) with (String c s ++ q)%string.
    rewrite (surrogate_at_head_app _ _ Hq E). apply IH; assumption.
Qed.

Lemma first_surrogate_prefix : forall p s i,
  ascii_only p = true ->
  first_surrogate 0 s = None -> first_surrogate i (p ++ s) = None.
Proof.
  induction p as [|c p IH]; intros s i Hp H.
  - eapply first_surrogate_idx. exact H.
  - unfold ascii_only in Hp. simpl in Hp. apply andb_true_iff in Hp.
    destruct Hp as [Hc Hp].
    change (String c p ++ s)%string with (String c (p ++ s)%string).
    cbn [first_surrogate]. rewrite (surrogate_at_head_ascii c _ Hc).
    apply IH; assumption.
Qed.

(** A diagnostic that quotes a name between two ASCII texts is printed
    whenever the name holds no lone surrogate. *)
Lemma print_quoted_name : forall before name after,
  ascii_only before = true -> ascii_only after = true ->
  has_surrogate name = false ->
  print (before ++ name ++ after)%string = None.
Proof.
  intros before name after Hb Ha Hn. unfold print, encode_error.
  unfold has_surrogate in Hn.
  destruct (first_surrogate 0 name) eqn:E; [discriminate|].
  rewrite (first_surrogate_prefix before (name ++ after) 0 Hb
             (first_surrogate_app name after 0 Ha E)).
  reflexivity.
Qed.

Lemma get_gemini_model_fallback : forall w name,
  ~ In name allowed_models ->
  has_surrogate name = false ->
  get_gemini_model w name = get_gemini_model w "gemini-1.5-flash".
Proof.
  intros w name H Hs. unfold get_gemini_model.
  rewrite (str_in_false _ _ H).
  destruct (getenv_GOOGLE_API_KEY w) as [[|c key]|]; try reflexivity.
  cbn [negb].
  rewrite (print_quoted_name "Warning: Invalid model '" name
             "' requested. Defaulting to 'gemini-1.5-flash'."
             eq_refl eq_refl Hs).
  reflexivity.
Qed.

(** X17.  A model name outside the allow-list that [sys.stdout] can encode
    (it holds no lone surrogate) is replaced by ["gemini-1.5-flash"]:
    resolving it gives whatever resolving the default gives (so it fails
    only if the default fails too), it yields the default's handle when the
    credential is set and the constructor returns, and the generation call
    of [/simplify] and the chat of [/ask] proceed exactly as for the
    default. *)
Theorem unknown_model_falls_back : forall w name,
  ~ In name allowed_models ->
  has_surrogate name = false ->
  get_gemini_model w name = get_gemini_model w "gemini-1.5-flash"
  /\ (forall key,
        getenv_GOOGLE_API_KEY w = Some key -> key <> EmptyString ->
        GenerativeModel_init w "gemini-1.5-flash" = None ->
        get_gemini_model w name = Ok {| model_name := "gemini-1.5-flash" |})
  /\ (forall prompt st,
        generate_summary w name prompt st
        = generate_summary w "gemini-1.5-flash" prompt st)
  /\ (forall document_text qa_prompt st,
        chat_answer w name document_text qa_prompt st
        = chat_answer w "gemini-1.5-flash" document_text qa_prompt st).
Proof.
  intros w name H Hs. pose proof (get_gemini_model_fallback w name H Hs) as F.
  split; [exact F|]. split; [|split].
  - intros key Hk Hne Hinit. rewrite F. unfold get_gemini_model.
    rewrite Hk. destruct key; [congruence|]. simpl. rewrite Hinit. reflexivity.
  - intros. unfold generate_summary. rewrite F. reflexivity.
  - intros. unfold chat_answer. rewrite F. reflexivity.
Qed.

Lemma unknown_model_falls_back_witness :
  ~ In "gpt-4" allowed_models
  /\ get_gemini_model office_world "gpt-4"
     = Ok {| model_name := "gemini-1.5-flash" |}.
Proof.
  assert (H : ~ In "gpt-4" allowed_models).
  { simpl. intros [E|[E|[]]]; discriminate E. }
  split; [exact H|].
  destruct (unknown_model_falls_back office_world "gpt-4" H eq_refl) as [_ [K _]].
  apply (K "key"); [reflexivity | discriminate | reflexivity].
Defined.

(** C4, at the failing input.  A model name made of a lone surrogate is
    outside the allow-list, yet it is not replaced by the default: the
    warning that announces the fallback cannot be printed, the handler of
    that failure formats the name again, and the gateway raises.  [/ask]
    then answers 500 for a body that is answered 200 once the [model] key
    is left out, in a world where the default model works. *)
Theorem unprintable_name_is_not_replaced :
  ~ In lone_surrogate allowed_models
  /\ get_gemini_model office_world "gemini-1.5-flash"
     = Ok {| model_name := "gemini-1.5-flash" |}
  /\ get_gemini_model office_world lone_surrogate
     = Raise (ValueError
         "'utf-8' codec can't encode character '\ud800' in position 33: surrogates not allowed")
  /\ fst (ask_question office_world surrogate_model_body initial_state)
     = mk_response 500 (Json (error_body
         "AI model configuration error for chat: 'utf-8' codec can't encode character '\ud800' in position 33: surrogates not allowed"))
  /\ fst (ask_question office_world question_body initial_state)
     = mk_response 200 (Json (JObj [("answer", JStr "Party A is the lessor.")])).
Proof.
  split; [|repeat split].
  simpl. intros [E|[E|[]]]; discriminate E.
Qed.

(** ** Row keys *)

Lemma fold_max_ge : forall ids x, In x ids -> (x <= fold_right Z.max 0 ids)%Z.
Proof.
  induction ids as [|y ids IH]; simpl; intros x H; [contradiction|].
  destruct H as [->|H]; [lia|]. specialize (IH x H). lia.
Qed.

Lemma next_id_fresh : forall ids, ~ In (next_id ids) ids.
Proof.
  intros ids H. apply fold_max_ge in H. unfold next_id in H. lia.
Qed.

Lemma update_other_rows : forall (f : Document.row -> Document.row) k docs,
  ~ In k (map Document.id docs) ->
  map (fun d => if (Document.id d =? k)%Z then f d else d) docs = docs.
Proof.
  induction docs as [|d docs IH]; simpl; intros H; [reflexivity|].
  destruct (Z.eqb_spec (Document.id d) k) as [E|E].
  - exfalso. apply H. left. exact E.
  - rewrite IH; [reflexivity|]. intros H'. apply H. right. exact H'.
Qed.

(** Updating the row that [add_document] has just appended touches that
    row only. *)
Lemma update_appended_row : forall docs doc k new_status new_summary,
  k = next_id (map Document.id docs) ->
  Document.id doc = k ->
  map (fun d => if (Document.id d =? k)%Z
                then set_status_summary new_status new_summary d else d)
      (docs ++ [doc])
  = docs ++ [set_status_summary new_status new_summary doc].
Proof.
  intros docs doc k s sm Ek E. rewrite map_app. simpl. rewrite E, Z.eqb_refl.
  rewrite update_other_rows; [reflexivity|].
  rewrite Ek. apply next_id_fresh.
Qed.

Lemma truthy_str_true : forall s, s <> EmptyString -> truthy_str s = true.
Proof. intros [|c s] H; [contradiction|reflexivity]. Qed.

Lemma no_text_false : forall t, strip t <> EmptyString -> no_text (Some t) = false.
Proof.
  intros t H. destruct (no_text (Some t)) eqn:E; [|reflexivity].
  apply no_text_spec in E. destruct E as [E|[t' [E Hs]]]; [discriminate|].
  inversion E; subst. contradiction.
Qed.

Arguments _build_analysis_prompt : simpl never.
Arguments _build_qa_prompt : simpl never.
Arguments next_id : simpl never.

(** ** [/simplify], path by path *)

Section SimplifyPaths.
Variables (w : World) (request : FormRequest) (st : State) (pdf_file : FileStorage).
Hypothesis has_file : lookup "pdfFile" (files request) = Some pdf_file.
Hypothesis has_name : filename pdf_file <> EmptyString.

Let selected_model_name := dict_get (form request) "model" "gemini-1.5-flash".
Let uploaded := log_event w "UPLOAD_SUCCESS" (filename pdf_file) st.

(** Extraction failed: the failed row, then the TEXT_EXTRACT_FAIL event. *)
Lemma simplify_document_no_text :
  no_text (extract_text_from_pdf w (stream pdf_file)) = true ->
  simplify_document w request st
  = (with_status (jsonify (error_body "Could not extract text from the PDF.")) 400,
     log_event w "TEXT_EXTRACT_FAIL" (filename pdf_file)
       (snd (add_document w (filename pdf_file) "Analysis Failed"
                          (Some "Could not extract text from PDF.") None
                          (Some selected_model_name) uploaded))).
Proof.
  intros H. unfold simplify_document. rewrite has_file.
  rewrite (truthy_str_true _ has_name). simpl negb. cbv iota.
  fold selected_model_name. fold uploaded. simpl in H |- *. rewrite H. reflexivity.
Qed.

(** Extraction gave text: the row in progress, then the [try] block. *)
Lemma simplify_document_with_text : forall document_text,
  extract_text_from_pdf w (stream pdf_file) = Some document_text ->
  strip document_text <> EmptyString ->
  simplify_document w request st
  = let inserted :=
      add_document w (filename pdf_file) "In Progress" None (Some document_text)
                   (Some selected_model_name) uploaded in
    let full_prompt :=
      _build_analysis_prompt document_text
        (dict_get (form request) "prompt" "Provide a comprehensive analysis.") in
    let finish new_status new_summary event_type (s : State) :=
      log_event w event_type (filename pdf_file)
        (update_document (set_status_summary new_status new_summary (fst inserted)) s) in
    match generate_summary w selected_model_name full_prompt (snd inserted) with
    | (Ok response_text, s) =>
        (jsonify (JObj [("summary", JStr response_text);
                        ("document_text", JStr document_text)]),
         finish "Analyzed" (Some response_text) "ANALYSIS_SUCCESS" s)
    | (Raise (ValueError msg), s) =>
        (with_status
           (jsonify (error_body ("AI model configuration error: " ++ msg)%string)) 500,
         finish "Analysis Failed" (Some ("API Error: " ++ msg)%string) "ANALYSIS_FAIL" s)
    | (Raise e, s) =>
        (with_status
           (jsonify (error_body
              "Failed to get a response from the AI model. Check server logs for details."))
           500,
         finish "Analysis Failed" (Some ("Analysis failed: " ++ str_exn e)%string)
                "ANALYSIS_FAIL" s)
    end.
Proof.
  intros document_text Ht Hs. unfold simplify_document. rewrite has_file.
  rewrite (truthy_str_true _ has_name). simpl negb. cbv iota.
  fold selected_model_name. fold uploaded. rewrite Ht.
  rewrite (no_text_false _ Hs). cbv zeta.
  unfold add_document at 1. cbv iota beta.
  destruct (generate_summary _ _ _ _) as [[response_text|e] s]; [reflexivity|].
  destruct e; reflexivity.
Qed.
End SimplifyPaths.




(** C2.  When the upload carries a selected PDF and extraction raises or
    yields a blank string, the handler answers 400, the store gains one
    Document with status Analysis Failed and the fixed summary, and the
    history gains UPLOAD_SUCCESS followed by TEXT_EXTRACT_FAIL for the
    file. *)
Theorem simplify_extraction_failure :
  forall w request st pdf_file,
    lookup "pdfFile" (files request) = Some pdf_file ->
    filename pdf_file <> EmptyString ->
    (extract_text_from_pdf w (stream pdf_file) = None
     \/ exists t, extract_text_from_pdf w (stream pdf_file) = Some t
                  /\ strip t = EmptyString) ->
    let st' := snd (simplify_document w request st) in
    fst (simplify_document w request st)
    = mk_response 400 (Json (error_body "Could not extract text from the PDF."))
    /\ exists doc upload_event fail_event,
         documents (db st') = documents (db st) ++ [doc]
         /\ Document.filename doc = filename pdf_file
         /\ Document.status doc = "Analysis Failed"
         /\ Document.summary doc = Some "Could not extract text from PDF."
         /\ history_events (db st')
            = history_events (db st) ++ [upload_event; fail_event]
         /\ HistoryEvent.event_type upload_event = "UPLOAD_SUCCESS"
         /\ HistoryEvent.event_type fail_event = "TEXT_EXTRACT_FAIL"
         /\ HistoryEvent.document_name fail_event = filename pdf_file.
Proof.
  intros w request st pdf_file Hfile Hname Hfail st'. subst st'.
  apply no_text_spec in Hfail.
  rewrite (simplify_document_no_text w request st pdf_file Hfile Hname Hfail).
  split; [reflexivity|].
  unfold add_document, log_event; simpl.
  eexists _, _, _. split; [reflexivity|].
  rewrite <- app_assoc. simpl. repeat split.
Qed.

Lemma simplify_extraction_failure_witness :
  fst (simplify_document scanned_world upload initial_state)
  = mk_response 400 (Json (error_body "Could not extract text from the PDF.")).
Proof.
  apply (simplify_extraction_failure scanned_world upload initial_state lease_pdf);
    [reflexivity | discriminate | ].
  right. exists EmptyString. split; reflexivity.
Defined.

(** What one run of [/simplify] does to the state, in each of its paths:
    nothing (a 400 before any write); the failed row between its two
    events; or the row in progress, the generation call if a handle was
    obtained, and the outcome of the analysis with its event. *)
Lemma simplify_document_cases : forall w request st,
  let st' := snd (simplify_document w request st) in
  let selected := dict_get (form request) "model" "gemini-1.5-flash" in
  st' = st
  \/ (exists name doc e1 e2,
        documents (db st') = documents (db st) ++ [doc]
        /\ history_events (db st') = history_events (db st) ++ [e1; e2]
        /\ trace st'
           = trace st ++ [InsertHistoryEvent e1; InsertDocument doc; InsertHistoryEvent e2]
        /\ Document.id doc = next_id (map Document.id (documents (db st)))
        /\ Document.filename doc = name
        /\ Document.status doc = "Analysis Failed"
        /\ Document.model_used doc = Some selected
        /\ HistoryEvent.event_type e1 = "UPLOAD_SUCCESS"
        /\ HistoryEvent.document_name e1 = name
        /\ HistoryEvent.event_type e2 = "TEXT_EXTRACT_FAIL"
        /\ HistoryEvent.document_name e2 = name)
  \/ (exists name doc new_status new_summary e1 e2 calls,
        documents (db st')
        = documents (db st) ++ [set_status_summary new_status new_summary doc]
        /\ history_events (db st') = history_events (db st) ++ [e1; e2]
        /\ trace st'
           = trace st ++ [InsertHistoryEvent e1; InsertDocument doc] ++ calls
             ++ [UpdateDocument (set_status_summary new_status new_summary doc);
                 InsertHistoryEvent e2]
        /\ Document.id doc = next_id (map Document.id (documents (db st)))
        /\ Document.filename doc = name
        /\ Document.status doc = "In Progress"
        /\ Document.model_used doc = Some selected
        /\ HistoryEvent.event_type e1 = "UPLOAD_SUCCESS"
        /\ HistoryEvent.document_name e1 = name
        /\ HistoryEvent.document_name e2 = name
        /\ ((new_status = "Analyzed"
             /\ HistoryEvent.event_type e2 = "ANALYSIS_SUCCESS")
            \/ (new_status = "Analysis Failed"
                /\ HistoryEvent.event_type e2 = "ANALYSIS_FAIL"))
        /\ (calls = []
            \/ exists m prompt,
                 calls = [GenerateContent m prompt]
                 /\ get_gemini_model w selected = Ok m)).
Proof.
  intros w request st st' selected. subst st'.
  destruct (lookup "pdfFile" (files request)) as [pdf_file|] eqn:Hfile;
    [|left; unfold simplify_document; rewrite Hfile; reflexivity].
  destruct (filename pdf_file) as [|c name'] eqn:Hname;
    [left; unfold simplify_document; rewrite Hfile, Hname; reflexivity|].
  assert (Hne : filename pdf_file <> EmptyString) by (rewrite Hname; discriminate).
  clear Hname.
  destruct (no_text (extract_text_from_pdf w (stream pdf_file))) eqn:Hno.
  - right; left.
    rewrite (simplify_document_no_text w request st pdf_file Hfile Hne Hno).
    unfold add_document, log_event; simpl.
    eexists (filename pdf_file), _, _, _.
    rewrite <- !app_assoc. simpl. repeat split.
  - right; right.
    destruct (extract_text_from_pdf w (stream pdf_file)) as [document_text|] eqn:Ht;
      [|discriminate Hno].
    assert (Hs : strip document_text <> EmptyString).
    { intros E. assert (no_text (Some document_text) = true); [|congruence].
      apply no_text_spec. right. exists document_text. auto. }
    rewrite (simplify_document_with_text w request st pdf_file Hfile Hne
               document_text Ht Hs).
    cbv zeta. fold selected. unfold generate_summary.
    destruct (get_gemini_model w selected) as [m|e] eqn:Hm.
    + destruct (generate_content w m _) as [response|e] eqn:Hg.
      * destruct (text response) as [summary_text|e];
          [|destruct e];
          unfold add_document, update_document, log_event; simpl;
          (rewrite update_appended_row by reflexivity);
          eexists (filename pdf_file), _, _, _, _, _, [GenerateContent m _];
          rewrite <- !app_assoc; simpl;
          (repeat split; try reflexivity);
          try (left; split; reflexivity); try (right; split; reflexivity);
          right; eexists _, _; split; reflexivity.
      * destruct e;
          unfold add_document, update_document, log_event; simpl;
          (rewrite update_appended_row by reflexivity);
          eexists (filename pdf_file), _, _, _, _, _, [GenerateContent m _];
          rewrite <- !app_assoc; simpl;
          (repeat split; try reflexivity);
          try (right; split; reflexivity);
          right; eexists _, _; split; reflexivity.
    + destruct e;
        unfold add_document, update_document, log_event; simpl;
        (rewrite update_appended_row by reflexivity);
        eexists (filename pdf_file), _, _, _, _, _, [];
        rewrite <- !app_assoc; simpl;
        (repeat split; try reflexivity);
        try (right; split; reflexivity); left; reflexivity.
Qed.

Lemma get_gemini_model_name : forall w name m,
  get_gemini_model w name = Ok m ->
  model_name m = if str_in name allowed_models then name else "gemini-1.5-flash".
Proof.
  intros w name m. unfold get_gemini_model.
  destruct (getenv_GOOGLE_API_KEY w) as [[|c key]|]; try discriminate.
  destruct (str_in name allowed_models); cbn [negb].
  - destruct (GenerativeModel_init w name); [discriminate|].
    intros H; inversion H; reflexivity.
  - destruct (print _) as [e|].
    + destruct (print _); discriminate.
    + destruct (GenerativeModel_init w "gemini-1.5-flash"); [discriminate|].
      intros H; inversion H; reflexivity.
Qed.

(** C10.  In every run of [/simplify], each Document the run persists has
    as [model_used] the [model] form field as sent (["gemini-1.5-flash"]
    when the field is absent), while each generation call of the run goes
    to that name only if it is on the allow-list and to
    ["gemini-1.5-flash"] otherwise; so for a name off the allow-list the
    stored name is not among the models invoked. *)
Theorem model_used_is_requested_name : forall w request st,
  let st' := snd (simplify_document w request st) in
  let selected := dict_get (form request) "model" "gemini-1.5-flash" in
  exists new,
    trace st' = trace st ++ new
    /\ (forall doc, In doc (inserted_documents new) ->
                    Document.model_used doc = Some selected)
    /\ (forall doc,
          In doc (documents (db st')) ->
          ~ In (Document.id doc) (map Document.id (documents (db st))) ->
          Document.model_used doc = Some selected)
    /\ (forall name,
          In name (invoked_models new) ->
          name = if str_in selected allowed_models then selected
                 else "gemini-1.5-flash")
    /\ (~ In selected allowed_models -> ~ In selected (invoked_models new)).
Proof.
  intros w request st st' selected.
  assert (Hold : forall doc : Document.row,
             In doc (documents (db st)) ->
             ~ In (Document.id doc) (map Document.id (documents (db st))) -> False).
  { intros doc Hin Hnot. apply Hnot, in_map, Hin. }
  assert (Hdefault : ~ In selected allowed_models -> selected <> "gemini-1.5-flash").
  { intros Hnot E. apply Hnot. rewrite E. simpl. auto. }
  destruct (simplify_document_cases w request st) as [E|[C|C]];
    fold st' in E || fold st' in C; fold selected in C || idtac.
  - exists []. rewrite E, app_nil_r. repeat split; simpl; try contradiction.
    + intros doc Hin Hnot. exfalso. exact (Hold doc Hin Hnot).
    + auto.
  - destruct C as (name & doc & e1 & e2 & Hdocs & _ & Htr & _ & _ & _ & Hmu & _).
    eexists. split; [exact Htr|]. simpl. repeat split; try contradiction.
    + intros d [<-|[]]. exact Hmu.
    + intros d Hin Hnot. rewrite Hdocs in Hin. apply in_app_or in Hin.
      destruct Hin as [Hin|[<-|[]]]; [exfalso; exact (Hold d Hin Hnot) | exact Hmu].
    + auto.
  - destruct C as (name & doc & s & sm & e1 & e2 & calls & Hdocs & _ & Htr & _ & _
                   & _ & Hmu & _ & _ & _ & _ & Hcalls).
    eexists. split; [exact Htr|].
    destruct Hcalls as [->|(m & prompt & -> & Hm)]; simpl;
      repeat split; try contradiction.
    + intros d [<-|[]]. exact Hmu.
    + intros d Hin Hnot. rewrite Hdocs in Hin. apply in_app_or in Hin.
      destruct Hin as [Hin|[<-|[]]]; [exfalso; exact (Hold d Hin Hnot) | exact Hmu].
    + auto.
    + intros d [<-|[]]. exact Hmu.
    + intros d Hin Hnot. rewrite Hdocs in Hin. apply in_app_or in Hin.
      destruct Hin as [Hin|[<-|[]]]; [exfalso; exact (Hold d Hin Hnot) | exact Hmu].
    + intros n [<-|[]]. apply (get_gemini_model_name w selected m Hm).
    + intros Hnot [E|[]]. rewrite (get_gemini_model_name w selected m Hm) in E.
      rewrite (str_in_false selected allowed_models Hnot) in E.
      apply (Hdefault Hnot). symmetry. exact E.
Qed.

(** An upload asking for ["gpt-4"]: the stored name is ["gpt-4"], the model
    invoked is ["gemini-1.5-flash"]. *)
Lemma model_used_is_requested_name_witness :
  let st' := snd (simplify_document office_world (upload_with_model "gpt-4")
                                    initial_state) in
  ~ In "gpt-4" allowed_models
  /\ map Document.model_used (documents (db st')) = [Some "gpt-4"]
  /\ invoked_models (trace st') = ["gemini-1.5-flash"]
  /\ ~ In "gpt-4" (invoked_models (trace st')).
Proof.
  intros st'.
  assert (H : ~ In "gpt-4" allowed_models).
  { simpl. intros [E|[E|[]]]; discriminate E. }
  split; [exact H|]. split; [reflexivity|]. split; [reflexivity|].
  destruct (model_used_is_requested_name office_world (upload_with_model "gpt-4")
              initial_state) as (new & Htr & _ & _ & _ & Hnot).
  fold st' in Htr. change (trace st' = new) in Htr.
  rewrite Htr. apply Hnot. exact H.
Defined.

(** ** [/ask] *)

Lemma missing_fields_object : forall d,
  missing_fields (JObj d)
  = Ok (match lookup "document_text" d, lookup "question" d with
        | Some _, Some _ => false
        | _, _ => true
        end).
Proof.
  intros d. unfold missing_fields. destruct d as [|p d]; [reflexivity|].
  cbn [truthy negb py_in].
  destruct (lookup "document_text" (p :: d)); [|reflexivity].
  destruct (lookup "question" (p :: d)); reflexivity.
Qed.

(** [/ask] reads and writes no row: whatever the body, the store and the
    clock are as before, and the trace gains at most the chat call. *)
Lemma ask_question_state : forall w data st,
  exists calls,
    snd (ask_question w data st) = mk_state (db st) (clock st) (trace st ++ calls)
    /\ (calls = [] \/ exists m history message, calls = [SendMessage m history message]).
Proof.
  intros w data st.
  assert (Hsame : st = mk_state (db st) (clock st) (trace st ++ [])).
  { rewrite app_nil_r. destruct st; reflexivity. }
  unfold ask_question.
  destruct (missing_fields data) as [[|]|e];
    try (exists []; split; [exact Hsame | left; reflexivity]).
  destruct data; try (exists []; split; [exact Hsame | left; reflexivity]).
  unfold chat_answer.
  destruct (get_gemini_model w _) as [m|e].
  - destruct (send_message w m _ _) as [response|e];
      [destruct (text response) as [answer|e]|];
      try destruct e;
      (eexists [SendMessage m _ _]; split;
       [reflexivity | right; eexists _, _, _; reflexivity]).
  - destruct e; exists []; split; try exact Hsame; left; reflexivity.
Qed.

Lemma ask_question_frame : forall w data st,
  db (snd (ask_question w data st)) = db st.
Proof.
  intros w data st. destruct (ask_question_state w data st) as (calls & -> & _).
  reflexivity.
Qed.

(** A JSON object that lacks one of the two fields is answered 400. *)
Lemma ask_question_object_missing_field : forall w d st,
  lookup "document_text" d = None \/ lookup "question" d = None ->
  ask_question w (JObj d) st
  = (mk_response 400 (Json (error_body "Missing document_text or question in request.")),
     st).
Proof.
  intros w d st H. unfold ask_question. rewrite missing_fields_object.
  destruct H as [-> | ->]; [reflexivity|].
  destruct (lookup "document_text" d); reflexivity.
Qed.

(** A body that is falsy in Python ([null], [false], [0], the empty string,
    list or object) is answered 400. *)
Lemma ask_question_falsy_body : forall w data st,
  truthy data = false ->
  ask_question w data st
  = (mk_response 400 (Json (error_body "Missing document_text or question in request.")),
     st).
Proof.
  intros w data st H. unfold ask_question, missing_fields. rewrite H. reflexivity.
Qed.

(** C8, at the failing input.  The JSON array
    [["document_text", "question"]] has neither field, yet both membership
    tests succeed on it as list membership; [data.get] then raises outside
    the [try] and the request is answered 500, not 400.  The store is left
    as it was. *)
Theorem ask_question_array_body : forall w st,
  missing_fields array_body = Ok false
  /\ fst (ask_question w array_body st) = internal_server_error
  /\ status_code (fst (ask_question w array_body st)) = 500%Z
  /\ status_code (fst (ask_question w array_body st)) <> 400%Z
  /\ snd (ask_question w array_body st) = st.
Proof.
  intros w st. repeat split. discriminate.
Qed.

(** ** Error taxonomy of the LLM-dependent endpoints *)




(** ** [DELETE /document/<id>] *)

Lemma find_document_none : forall doc_id docs,
  find (fun r => (Document.id r =? doc_id)%Z) docs = None <->
  forall doc, In doc docs -> Document.id doc <> doc_id.
Proof.
  intros doc_id docs. split.
  - intros H doc Hin E. pose proof (find_none _ _ H doc Hin) as F.
    simpl in F. apply Z.eqb_neq in F. contradiction.
  - intros H. destruct (find _ docs) as [doc|] eqn:F; [|reflexivity].
    apply find_some in F. destruct F as [Hin E]. apply Z.eqb_eq in E.
    exfalso. exact (H doc Hin E).
Qed.

Lemma find_document_some : forall doc_id docs doc,
  find (fun r => (Document.id r =? doc_id)%Z) docs = Some doc ->
  In doc docs /\ Document.id doc = doc_id.
Proof.
  intros doc_id docs doc H. apply find_some in H. destruct H as [Hin E].
  apply Z.eqb_eq in E. auto.
Qed.

(** The lookup of a key SQLite can hold is a search of the table. *)
Lemma get_document_in_range : forall doc_id d,
  (doc_id <= sqlite_max_integer)%Z ->
  get_document doc_id d
  = Ok (find (fun r => (Document.id r =? doc_id)%Z) (documents d)).
Proof.
  intros doc_id d H. unfold get_document.
  destruct (Z.ltb_spec sqlite_max_integer doc_id); [lia | reflexivity].
Qed.

(** What [delete_document] does, by the range of the id and by the row
    found. *)
Lemma delete_document_cases : forall w doc_id st,
  let st' := snd (delete_document w doc_id st) in
  (delete_document w doc_id st = (not_found, st)
   /\ ((doc_id < 0)%Z
       \/ ((0 <= doc_id <= sqlite_max_integer)%Z
           /\ forall doc, In doc (documents (db st)) -> Document.id doc <> doc_id)))
  \/ (delete_document w doc_id st = (internal_server_error, st)
      /\ (sqlite_max_integer < doc_id)%Z)
  \/ (exists doc e,
        (0 <= doc_id <= sqlite_max_integer)%Z
        /\ In doc (documents (db st)) /\ Document.id doc = doc_id
        /\ fst (delete_document w doc_id st)
           = jsonify (JObj [("message", JStr "Document deleted successfully.")])
        /\ documents (db st')
           = filter (fun d => negb (Document.id d =? doc_id)%Z) (documents (db st))
        /\ history_events (db st') = history_events (db st) ++ [e]
        /\ trace st' = trace st ++ [DeleteDocument doc_id; InsertHistoryEvent e]
        /\ HistoryEvent.id e = next_id (map HistoryEvent.id (history_events (db st)))
        /\ HistoryEvent.event_type e = "DELETE_DOCUMENT"
        /\ HistoryEvent.document_name e = Document.filename doc).
Proof.
  intros w doc_id st st'. subst st'. unfold delete_document.
  destruct (Z.ltb_spec doc_id 0) as [Hneg|Hpos]; [left; auto|].
  unfold get_document.
  destruct (Z.ltb_spec sqlite_max_integer doc_id) as [Hbig|Hfit];
    [right; left; auto|].
  destruct (find _ (documents (db st))) as [doc|] eqn:F.
  - right; right. destruct (find_document_some _ _ _ F) as [Hin E].
    exists doc. eexists. simpl. rewrite <- app_assoc. simpl.
    repeat split; auto; lia.
  - left. split; [reflexivity|]. right. split; [lia|].
    apply find_document_none. exact F.
Qed.

(** C7, at the failing input.  In a store whose keys SQLite holds no
    Document has the key 2^63, yet the DELETE of that key is answered 500,
    not 404: binding the key raises in the lookup of [get_or_404], outside
    any [try].  Nothing is written. *)
Theorem delete_document_unstorable_id : forall w st,
  delete_document w first_unstorable_id st = (internal_server_error, st)
  /\ status_code (fst (delete_document w first_unstorable_id st)) = 500%Z
  /\ status_code (fst (delete_document w first_unstorable_id st)) <> 404%Z
  /\ ((forall doc, In doc (documents (db st)) ->
                   (Document.id doc <= sqlite_max_integer)%Z) ->
      forall doc, In doc (documents (db st)) ->
                  Document.id doc <> first_unstorable_id).
Proof.
  intros w st. repeat split; try discriminate.
  intros H doc Hin E. specialize (H doc Hin). rewrite E in H.
  unfold first_unstorable_id, sqlite_max_integer in H. lia.
Qed.

(** X18.  [DELETE /document/<id>] for a key SQLite can hold (below 2^63):
    when no Document has the id the answer is 404 and nothing changes;
    when one has it the answer is 200, the next [/documents] listing
    holds exactly the other Documents, and the history gains exactly one
    event, a DELETE_DOCUMENT bearing the filename of the deleted
    Document. *)
Theorem delete_document_contract : forall w doc_id st,
  (0 <= doc_id <= sqlite_max_integer)%Z ->
  ((forall doc, In doc (documents (db st)) -> Document.id doc <> doc_id) ->
   delete_document w doc_id st = (mk_response 404 ErrorPage, st))
  /\ ((exists doc, In doc (documents (db st)) /\ Document.id doc = doc_id) ->
      let st' := snd (delete_document w doc_id st) in
      exists doc event listing,
        In doc (documents (db st)) /\ Document.id doc = doc_id
        /\ fst (delete_document w doc_id st)
           = mk_response 200
               (Json (JObj [("message", JStr "Document deleted successfully.")]))
        /\ fst (get_documents st') = jsonify (JArr (map Document.to_dict listing))
        /\ (forall d, In d listing <->
                      In d (documents (db st)) /\ Document.id d <> doc_id)
        /\ (forall d, In d listing -> Document.id d <> doc_id)
        /\ history_events (db st') = history_events (db st) ++ [event]
        /\ HistoryEvent.event_type event = "DELETE_DOCUMENT"
        /\ HistoryEvent.document_name event = Document.filename doc).
Proof.
  intros w doc_id st Hrange.
  destruct (delete_document_cases w doc_id st)
    as [[E [Hneg|[_ Hnone]]]|[[E Hbig]|D]]; try lia.
  - split; [intros _; exact E|].
    intros [doc [Hin Hid]]. exfalso. exact (Hnone doc Hin Hid).
  - destruct D as (doc & e & _ & Hin & Hid & Hresp & Hdocs & Hev & _ & _ & Ht & Hn).
    split; [intros Hnone; exfalso; exact (Hnone doc Hin Hid)|].
    intros _ st'. subst st'.
    assert (Hl : forall d,
               In d (order_by_desc Document.upload_date
                       (documents (db (snd (delete_document w doc_id st)))))
               <-> In d (documents (db st)) /\ Document.id d <> doc_id).
    { intros d. rewrite order_by_desc_In, Hdocs, filter_In.
      rewrite negb_true_iff, Z.eqb_neq. reflexivity. }
    exists doc, e. eexists.
    split; [exact Hin|]. split; [exact Hid|]. split; [exact Hresp|].
    split; [reflexivity|]. split; [exact Hl|].
    split; [intros d Hd; apply Hl in Hd; tauto|].
    split; [exact Hev|]. split; assumption.
Qed.

Lemma delete_document_contract_witness :
  let st := snd (simplify_document office_world upload initial_state) in
  (exists doc, In doc (documents (db st)) /\ Document.id doc = 1%Z)
  /\ status_code (fst (delete_document office_world 1 st)) = 200%Z
  /\ fst (get_documents (snd (delete_document office_world 1 st))) = jsonify (JArr [])
  /\ (forall doc, In doc (documents (db st)) -> Document.id doc <> 2%Z)
  /\ delete_document office_world 2 st = (mk_response 404 ErrorPage, st).
Proof.
  intros st.
  assert (H1 : exists doc, In doc (documents (db st)) /\ Document.id doc = 1%Z).
  { eexists. split; [left; reflexivity | reflexivity]. }
  assert (H2 : forall doc, In doc (documents (db st)) -> Document.id doc <> 2%Z).
  { intros doc [<-|[]]. discriminate. }
  assert (R1 : (0 <= 1 <= sqlite_max_integer)%Z) by (unfold sqlite_max_integer; lia).
  assert (R2 : (0 <= 2 <= sqlite_max_integer)%Z) by (unfold sqlite_max_integer; lia).
  destruct (delete_document_contract office_world 1 st R1) as [_ Hyes].
  destruct (delete_document_contract office_world 2 st R2) as [Hno _].
  destruct (Hyes H1) as (doc & event & listing & _ & _ & Hresp & _).
  split; [exact H1|]. split; [rewrite Hresp; reflexivity|].
  split; [reflexivity|]. split; [exact H2 | exact (Hno H2)].
Defined.

(** ** Statuses and the history *)






(** An analysed upload, run from the fresh store: two status writes, two
    events. *)
Example analysed_upload_transitions :
  let st' := snd (handle office_world (PostSimplify upload) initial_state) in
  map (fun t => (created t, Document.status (written t)))
      (status_transitions (trace st'))
  = [(true, "In Progress"); (false, "Analyzed")]
  /\ map HistoryEvent.event_type (logged_events (trace st'))
     = ["UPLOAD_SUCCESS"; "ANALYSIS_SUCCESS"]
  /\ map Document.status (documents (db st')) = ["Analyzed"].
Proof. repeat split. Qed.

(** Two uploads a second apart are listed newest first. *)
Example two_uploads_listed_newest_first :
  let st1 := snd (handle office_world (PostSimplify upload) initial_state) in
  let st2 := snd (handle office_world (PostSimplify upload) st1) in
  map Document.id (order_by_desc Document.upload_date (documents (db st2)))
  = [2%Z; 1%Z].
Proof. reflexivity. Qed.

(** * Further properties of the code *)

(** ** The blank-text guard of [/simplify] *)

Lemma starts_with_split : forall p s,
  starts_with p s = true -> exists r, s = (p ++ r)%string.
Proof.
  induction p as [|c p IH]; intros s H.
  - exists s. reflexivity.
  - destruct s as [|c' s]; [discriminate H|]. cbn [starts_with] in H.
    apply andb_true_iff in H. destruct H as [Hc H].
    apply Ascii.eqb_eq in Hc. subst c'.
    destruct (IH s H) as [r ->]. exists r. reflexivity.
Qed.

Lemma whitespace_nonempty : forall ws,
  In ws whitespace -> exists c ws', ws = String c ws'.
Proof.
  intros ws H. destruct ws as [|c ws']; [|exists c, ws'; reflexivity].
  exfalso. unfold whitespace in H.
  repeat (destruct H as [H|H]; [discriminate H|]). exact H.
Qed.

(** No whitespace character is the start of another: a text that begins
    with one begins with that one only. *)
Lemma space_len_whitespace : forall ws r,
  In ws whitespace -> space_len (ws ++ r) = String.length ws.
Proof.
  intros ws r H. unfold whitespace in H.
  repeat (destruct H as [<-|H]; [reflexivity|]). contradiction.
Qed.

Lemma space_len_positive : forall s k,
  space_len s = S k ->
  exists ws r, In ws whitespace /\ s = (ws ++ r)%string /\ String.length ws = S k.
Proof.
  intros s k H. unfold space_len in H.
  destruct (find (fun ws => starts_with ws s) whitespace) as [ws|] eqn:F;
    [|discriminate H].
  apply find_some in F. destruct F as [Hin Hp].
  destruct (starts_with_split _ _ Hp) as [r ->]. exists ws, r. auto.
Qed.

Lemma string_length_append : forall a b,
  String.length (a ++ b) = String.length a + String.length b.
Proof.
  induction a as [|c a IH]; intros b; [reflexivity|].
  change (String c a ++ b)%string with (String c (a ++ b)%string).
  cbn [String.length]. rewrite IH. reflexivity.
Qed.

Lemma lstrip_from_skip : forall p r,
  lstrip_from (String.length p) (p ++ r) = lstrip_from 0 r.
Proof.
  induction p as [|c p IH]; intros r; [reflexivity|].
  change (String c p ++ r)%string with (String c (p ++ r)%string).
  cbn [String.length lstrip_from]. apply IH.
Qed.

Lemma lstrip_whitespace : forall ws r,
  In ws whitespace -> lstrip (ws ++ r) = lstrip r.
Proof.
  intros ws r H. pose proof (space_len_whitespace ws r H) as L.
  destruct (whitespace_nonempty ws H) as (c & ws' & ->).
  unfold lstrip.
  change (String c ws' ++ r)%string with (String c (ws' ++ r)%string) in *.
  cbn [lstrip_from]. rewrite L. cbn [String.length]. apply lstrip_from_skip.
Qed.

Lemma lstrip_no_space : forall s, space_len s = 0 -> lstrip s = s.
Proof.
  intros s H. unfold lstrip. destruct s as [|c s]; [reflexivity|].
  cbn [lstrip_from]. rewrite H. reflexivity.
Qed.

(** [lstrip] either leaves the text as it is, or drops one whitespace
    character from its head and goes on. *)
Lemma lstrip_step : forall s,
  lstrip s = s
  \/ exists ws r, In ws whitespace /\ s = (ws ++ r)%string /\ lstrip s = lstrip r
                  /\ String.length r < String.length s.
Proof.
  intros s. destruct (space_len s) as [|k] eqn:L.
  - left. apply lstrip_no_space. exact L.
  - right. destruct (space_len_positive s k L) as (ws & r & Hin & -> & Hl).
    exists ws, r. split; [exact Hin|]. split; [reflexivity|].
    split; [apply lstrip_whitespace; exact Hin|].
    rewrite string_length_append. lia.
Qed.

Lemma blank_lstrip : forall t, blank t -> lstrip t = EmptyString.
Proof.
  intros t (chars & Hall & ->). induction Hall as [|ch chars Hch _ IH].
  - reflexivity.
  - cbn [join_empty fold_right]. rewrite (lstrip_whitespace ch _ Hch). exact IH.
Qed.

Lemma lstrip_blank : forall t, lstrip t = EmptyString -> blank t.
Proof.
  intros t. remember (String.length t) as n eqn:Hn. revert t Hn.
  induction n as [n IH] using lt_wf_ind. intros t Hn H.
  destruct (lstrip_step t) as [E|(ws & r & Hin & -> & E & Hlt)].
  - rewrite E in H. subst t. exists []. split; [constructor | reflexivity].
  - rewrite E in H. subst n.
    destruct (IH _ Hlt r eq_refl H) as (chars & Hall & ->).
    exists (ws :: chars). split; [constructor; assumption | reflexivity].
Qed.

Lemma lstrip_idempotent : forall s, lstrip (lstrip s) = lstrip s.
Proof.
  intros s. remember (String.length s) as n eqn:Hn. revert s Hn.
  induction n as [n IH] using lt_wf_ind. intros s Hn.
  destruct (lstrip_step s) as [E|(ws & r & Hin & -> & E & Hlt)].
  - rewrite E. exact E.
  - rewrite E. subst n. apply (IH _ Hlt r eq_refl).
Qed.

Lemma rstrip_empty_iff : forall s, rstrip s = EmptyString <-> lstrip s = EmptyString.
Proof.
  intros [|c s]; [split; reflexivity|]. cbn [rstrip].
  destruct (lstrip (String c s)); split; congruence.
Qed.

Lemma strip_empty_iff : forall s, strip s = EmptyString <-> blank s.
Proof.
  intros s. unfold strip. rewrite rstrip_empty_iff, lstrip_idempotent.
  split; [apply lstrip_blank | apply blank_lstrip].
Qed.

(** X1.  The guard [not document_text or not document_text.strip()] of
    [/simplify] turns an extracted text into an extraction failure exactly
    when the text is made of whitespace characters only, the empty text
    included: the characters [str.strip()] removes, from the tab to the
    ideographic space U+3000. *)
Theorem blank_text_guard : forall t,
  no_text (Some t) = true <-> blank t.
Proof.
  intros t. rewrite <- strip_empty_iff. rewrite no_text_spec. split.
  - intros [H|(t' & H & Hs)]; [discriminate|]. inversion H; subst. exact Hs.
  - intros H. right. exists t. auto.
Qed.

(** A page holding an EM SPACE and a line feed is no text. *)
Example em_space_text_is_blank :
  no_text (Some (em_space ++ String "010" EmptyString)%string) = true
  /\ fst (simplify_document em_space_world upload initial_state)
     = mk_response 400 (Json (error_body "Could not extract text from the PDF.")).
Proof. split; reflexivity. Qed.

(** ** The prompts *)

Lemma prefix_app : forall x b, String.prefix x (x ++ b)%string = true.
Proof.
  induction x as [|c x IH]; intros b; simpl; [destruct b; reflexivity|].
  destruct (Ascii.ascii_dec c c) as [_|N]; [apply IH | contradiction].
Qed.

Lemma str_contains_here : forall x b, str_contains x (x ++ b)%string = true.
Proof.
  intros x b. pose proof (prefix_app x b) as H.
  destruct (x ++ b)%string; cbn [str_contains]; rewrite H; reflexivity.
Qed.

Lemma str_contains_later : forall x a s,
  str_contains x s = true -> str_contains x (a ++ s)%string = true.
Proof.
  induction a as [|c a IH]; intros s H; [exact H|].
  change (String c a ++ s)%string with (String c (a ++ s)%string).
  cbn [str_contains].
  destruct (String.prefix x (String c (a ++ s))); [reflexivity|].
  apply IH, H.
Qed.

(** X2.  Both prompt builders insert their two arguments as they are: the
    document text and the user's instruction occur verbatim in the
    analysis prompt, the document text and the question in the Q&A
    prompt. *)
Theorem prompts_embed_inputs_verbatim : forall document_text user_text,
  str_contains document_text (_build_analysis_prompt document_text user_text) = true
  /\ str_contains user_text (_build_analysis_prompt document_text user_text) = true
  /\ str_contains document_text (_build_qa_prompt document_text user_text) = true
  /\ str_contains user_text (_build_qa_prompt document_text user_text) = true.
Proof.
  intros document_text user_text.
  unfold _build_analysis_prompt, _build_qa_prompt.
  repeat split;
    repeat first [ apply str_contains_here | apply str_contains_later ].
Qed.

(** ** The gateway, whatever the name and the world *)

Lemma print_raises_value_error : forall s e,
  print s = Some e -> exists msg, e = ValueError msg.
Proof.
  intros s e. unfold print. destruct (encode_error s) as [msg|]; [|discriminate].
  intros H. injection H as <-. exists msg. reflexivity.
Qed.

#[local] Opaque print.

(** X3.  [get_gemini_model] returns only handles for a model of the
    allow-list (the requested one when it is listed) and raises only
    [ValueError]: a constructor failure for a listed model is re-raised as
    a [ValueError] whose message names the model and quotes the cause. *)
Theorem get_gemini_model_outcomes : forall w name,
  match get_gemini_model w name with
  | Ok m => In (model_name m) allowed_models
            /\ (In name allowed_models -> model_name m = name)
  | Raise e => exists msg, e = ValueError msg
  end
  /\ (forall c key cause,
        getenv_GOOGLE_API_KEY w = Some (String c key) ->
        In name allowed_models ->
        GenerativeModel_init w name = Some cause ->
        get_gemini_model w name
        = Raise (ValueError
                   ("Failed to initialize Gemini model '" ++ name
                    ++ "'. Ensure API key is valid and model exists: "
                    ++ str_exn cause)%string)).
Proof.
  intros w name. split.
  - destruct (get_gemini_model w name) as [m|e] eqn:G.
    + pose proof (get_gemini_model_name w name m G) as Hn. split.
      * rewrite Hn. destruct (str_in name allowed_models) eqn:E.
        -- apply str_in_spec. exact E.
        -- simpl. auto.
      * intros Hin. rewrite Hn. apply str_in_spec in Hin. rewrite Hin. reflexivity.
    + unfold get_gemini_model in G.
      destruct (getenv_GOOGLE_API_KEY w) as [[|c key]|];
        try (injection G as <-; eexists; reflexivity).
      destruct (str_in name allowed_models); cbn [negb] in G.
      * destruct (GenerativeModel_init w name); [|discriminate G].
        injection G as <-. eexists; reflexivity.
      * destruct (print _) as [e1|] in G.
        -- destruct (print _) as [e2|] eqn:P2 in G.
           ++ injection G as <-. exact (print_raises_value_error _ _ P2).
           ++ injection G as <-. eexists; reflexivity.
        -- destruct (GenerativeModel_init w "gemini-1.5-flash"); [|discriminate G].
           injection G as <-. eexists; reflexivity.
  - intros c key cause Hk Hin Hinit. unfold get_gemini_model. rewrite Hk.
    apply str_in_spec in Hin. rewrite Hin. cbn [negb]. rewrite Hinit. reflexivity.
Qed.

#[local] Transparent print.

Lemma get_gemini_model_outcomes_witness :
  In "gemini-1.5-pro" allowed_models
  /\ get_gemini_model broken_sdk_world "gemini-1.5-pro"
     = Raise (ValueError
                "Failed to initialize Gemini model 'gemini-1.5-pro'. Ensure API key is valid and model exists: bad transport").
Proof.
  assert (H : In "gemini-1.5-pro" allowed_models) by (left; reflexivity).
  split; [exact H|].
  destruct (get_gemini_model_outcomes broken_sdk_world "gemini-1.5-pro") as [_ K].
  apply (K "k"%char "ey" (Exception "bad transport")); [reflexivity | exact H | reflexivity].
Defined.

(** ** [/simplify] beyond the two paths of the claims *)

(** X4.  An upload without the [pdfFile] part, or whose file has no name,
    is answered 400 before anything is written: no event is logged, not
    even UPLOAD_SUCCESS, and the state is the one before. *)
Theorem simplify_rejects_before_writing : forall w request st,
  (lookup "pdfFile" (files request) = None ->
   simplify_document w request st
   = (mk_response 400 (Json (error_body "No PDF file provided.")), st))
  /\ (forall pdf_file,
        lookup "pdfFile" (files request) = Some pdf_file ->
        filename pdf_file = EmptyString ->
        simplify_document w request st
        = (mk_response 400 (Json (error_body "No selected file.")), st)).
Proof.
  intros w request st. split.
  - intros H. unfold simplify_document. rewrite H. reflexivity.
  - intros pdf_file H Hn. unfold simplify_document. rewrite H, Hn. reflexivity.
Qed.

Lemma simplify_rejects_before_writing_witness :
  lookup "pdfFile" (files upload_without_file) = None
  /\ simplify_document office_world upload_without_file initial_state
     = (mk_response 400 (Json (error_body "No PDF file provided.")), initial_state).
Proof.
  split; [reflexivity|].
  apply (simplify_rejects_before_writing office_world upload_without_file initial_state).
  reflexivity.
Defined.




(** X6.  Every upload that carries a named file whose extracted text, if
    there is one, can be stored (it holds no lone surrogate, which SQLite
    cannot encode) is resolved within the request: the store gains exactly
    one Document, the history exactly
    two events for the file, UPLOAD_SUCCESS first, and the answer, the
    status left on the Document and the second event go together: 200 with
    Analyzed and ANALYSIS_SUCCESS, 400 with Analysis Failed and
    TEXT_EXTRACT_FAIL (no text kept), or 500 with Analysis Failed and
    ANALYSIS_FAIL.  No Document is left In Progress. *)
Theorem accepted_upload_is_resolved : forall w request st pdf_file,
  lookup "pdfFile" (files request) = Some pdf_file ->
  filename pdf_file <> EmptyString ->
  (forall t, extract_text_from_pdf w (stream pdf_file) = Some t ->
             has_surrogate t = false) ->
  let st' := snd (simplify_document w request st) in
  let code := status_code (fst (simplify_document w request st)) in
  exists doc e1 e2,
    documents (db st') = documents (db st) ++ [doc]
    /\ Document.filename doc = filename pdf_file
    /\ history_events (db st') = history_events (db st) ++ [e1; e2]
    /\ HistoryEvent.event_type e1 = "UPLOAD_SUCCESS"
    /\ HistoryEvent.document_name e1 = filename pdf_file
    /\ HistoryEvent.document_name e2 = filename pdf_file
    /\ ((code = 200%Z /\ Document.status doc = "Analyzed"
         /\ HistoryEvent.event_type e2 = "ANALYSIS_SUCCESS")
        \/ (code = 400%Z /\ Document.status doc = "Analysis Failed"
            /\ HistoryEvent.event_type e2 = "TEXT_EXTRACT_FAIL"
            /\ Document.full_text doc = None)
        \/ (code = 500%Z /\ Document.status doc = "Analysis Failed"
            /\ HistoryEvent.event_type e2 = "ANALYSIS_FAIL")).
Proof.
  intros w request st pdf_file Hfile Hname _ st' code. subst st' code.
  destruct (no_text (extract_text_from_pdf w (stream pdf_file))) eqn:Hno.
  - rewrite (simplify_document_no_text w request st pdf_file Hfile Hname Hno).
    unfold add_document, log_event; simpl.
    eexists _, _, _. rewrite <- !app_assoc. simpl.
    repeat (split; [reflexivity|]). right; left. repeat split.
  - destruct (extract_text_from_pdf w (stream pdf_file)) as [document_text|] eqn:Ht;
      [|discriminate Hno].
    assert (Hs : strip document_text <> EmptyString).
    { intros E. assert (no_text (Some document_text) = true); [|congruence].
      apply no_text_spec. right. exists document_text. auto. }
    rewrite (simplify_document_with_text w request st pdf_file Hfile Hname
               document_text Ht Hs).
    cbv zeta. unfold generate_summary.
    destruct (get_gemini_model w _) as [m|e];
      [destruct (generate_content w m _) as [response|e];
       [destruct (text response) as [summary_text|e]|]|];
      try destruct e;
      unfold add_document, update_document, log_event; simpl;
      (rewrite update_appended_row by reflexivity);
      eexists _, _, _; rewrite <- !app_assoc; simpl;
      repeat (split; [reflexivity|]);
      first [ left; repeat split; reflexivity
            | right; right; repeat split; reflexivity ].
Qed.

Lemma accepted_upload_is_resolved_witness :
  map Document.status
      (documents (db (snd (simplify_document offline_world upload initial_state))))
  = ["Analysis Failed"].
Proof.
  destruct (accepted_upload_is_resolved offline_world upload initial_state lease_pdf)
    as (doc & e1 & e2 & Hdocs & _ & _ & _ & _ & _ & Hout);
    [reflexivity | discriminate | intros t Ht; injection Ht as <-; reflexivity |].
  rewrite Hdocs. simpl.
  destruct Hout as [(C & _)|[(C & _)|(_ & Hs & _)]];
    [discriminate C | discriminate C | rewrite Hs; reflexivity].
Defined.

(** X7.  A run of [/simplify] calls the generation service at most once,
    and only after a named file has given text that is not blank and the
    gateway has returned a handle: the call goes to that handle with the
    analysis prompt built from the extracted text and the [prompt] form
    field (or its default).  A request answered 400 has called nothing. *)
Theorem generation_call_discipline : forall w request st,
  let st' := snd (simplify_document w request st) in
  let selected := dict_get (form request) "model" "gemini-1.5-flash" in
  exists new,
    trace st' = trace st ++ new
    /\ List.length (invoked_models new) <= 1
    /\ (forall m prompt,
          In (GenerateContent m prompt) new ->
          exists pdf_file document_text,
            lookup "pdfFile" (files request) = Some pdf_file
            /\ filename pdf_file <> EmptyString
            /\ extract_text_from_pdf w (stream pdf_file) = Some document_text
            /\ strip document_text <> EmptyString
            /\ get_gemini_model w selected = Ok m
            /\ prompt = _build_analysis_prompt document_text
                          (dict_get (form request) "prompt"
                                    "Provide a comprehensive analysis."))
    /\ (status_code (fst (simplify_document w request st)) = 400%Z ->
        invoked_models new = []).
Proof.
  intros w request st st' selected. subst st'.
  assert (Hnone : forall s : State, s = st ->
            exists new, trace s = trace st ++ new
              /\ List.length (invoked_models new) <= 1
              /\ (forall m prompt, In (GenerateContent m prompt) new -> False)
              /\ invoked_models new = []).
  { intros s ->. exists []. rewrite app_nil_r. simpl. repeat split; auto. }
  destruct (lookup "pdfFile" (files request)) as [pdf_file|] eqn:Hfile.
  2:{ destruct (Hnone (snd (simplify_document w request st))) as (new & H1 & H2 & H3 & H4).
      { unfold simplify_document. rewrite Hfile. reflexivity. }
      exists new. repeat split; auto. intros m p Hin. destruct (H3 m p Hin). }
  destruct (filename pdf_file) as [|c name'] eqn:Hn.
  { destruct (Hnone (snd (simplify_document w request st))) as (new & H1 & H2 & H3 & H4).
    { unfold simplify_document. rewrite Hfile, Hn. reflexivity. }
    exists new. repeat split; auto. intros m p Hin. destruct (H3 m p Hin). }
  assert (Hname : filename pdf_file <> EmptyString) by (rewrite Hn; discriminate).
  clear Hn Hnone.
  destruct (no_text (extract_text_from_pdf w (stream pdf_file))) eqn:Hno.
  - rewrite (simplify_document_no_text w request st pdf_file Hfile Hname Hno).
    unfold add_document, log_event; simpl. eexists. rewrite <- !app_assoc. simpl.
    split; [reflexivity|]. simpl. repeat split; auto.
    intros m p [H|[H|[H|[]]]]; discriminate H.
  - destruct (extract_text_from_pdf w (stream pdf_file)) as [document_text|] eqn:Ht;
      [|discriminate Hno].
    assert (Hs : strip document_text <> EmptyString).
    { intros E. assert (no_text (Some document_text) = true); [|congruence].
      apply no_text_spec. right. exists document_text. auto. }
    rewrite (simplify_document_with_text w request st pdf_file Hfile Hname
               document_text Ht Hs).
    cbv zeta. fold selected. unfold generate_summary.
    destruct (get_gemini_model w selected) as [m|e] eqn:Hm;
      [destruct (generate_content w m _) as [response|e];
       [destruct (text response) as [summary_text|e]|]|];
      try destruct e;
      unfold add_document, update_document, log_event; simpl;
      eexists; rewrite <- !app_assoc; simpl;
      (split; [reflexivity|]); simpl;
      (split; [lia|]);
      (split; [|intros C; discriminate C]);
      intros m' p Hin;
      repeat (destruct Hin as [Hin|Hin]; [try discriminate Hin|]);
      try contradiction;
      inversion Hin; subst;
      exists pdf_file, document_text; repeat split; auto.
Qed.

(** ** [/ask] beyond the 400 *)

(** X8.  [/ask] checks that the two keys are present, not what they hold:
    for a JSON object with both keys, whatever their values, a handle from
    the gateway and a reply whose text can be read, the answer is 200 with
    that text.  The chat is opened on two seeded turns, the first quoting
    the document text, and is sent one message, the Q&A prompt; no row is
    written. *)
Theorem ask_question_answers :
  forall w d st document_value question_value m response answer,
    lookup "document_text" d = Some document_value ->
    lookup "question" d = Some question_value ->
    get_gemini_model w (model_name_of (dict_get d "model" (JStr "gemini-1.5-flash")))
    = Ok m ->
    let document_text := py_str w document_value in
    let qa_prompt := _build_qa_prompt document_text (py_str w question_value) in
    let history :=
      [("user",
        ("Here is the legal document for context:"
         ++ String "010" (String "010" document_text))%string);
       ("model", "Understood. I have the document context.")] in
    send_message w m history qa_prompt = Ok response ->
    text response = Ok answer ->
    ask_question w (JObj d) st
    = (mk_response 200 (Json (JObj [("answer", JStr answer)])),
       mk_state (db st) (clock st) (trace st ++ [SendMessage m history qa_prompt])).
Proof.
  intros w d st document_value question_value m response answer Hd Hq Hm
         document_text qa_prompt history Hsend Hread.
  unfold ask_question. rewrite missing_fields_object, Hd, Hq.
  unfold chat_answer, dict_get. rewrite Hd, Hq.
  unfold dict_get in Hm. rewrite Hm.
  fold document_text. fold qa_prompt. fold history. rewrite Hsend, Hread.
  reflexivity.
Qed.

Lemma ask_question_answers_witness :
  fst (ask_question office_world null_fields_body initial_state)
  = mk_response 200 (Json (JObj [("answer", JStr "Party A is the lessor.")])).
Proof.
  unfold null_fields_body.
  rewrite (ask_question_answers office_world
             [("document_text", JNull); ("question", JNull)] initial_state
             JNull JNull {| model_name := "gemini-1.5-flash" |}
             {| text := Ok "Party A is the lessor." |} "Party A is the lessor.");
    reflexivity.
Defined.

(** X9.  Whatever the body and whatever the model does, [/ask] leaves
    the store and the clock as they were, sends at most one chat message,
    and answers 200, 400 or 500; it answers 400 exactly when the guard
    [not data or 'document_text' not in data or 'question' not in data]
    evaluates to true, and then has sent nothing. *)
Theorem ask_question_is_read_only : forall w data st,
  let resp := fst (ask_question w data st) in
  let st' := snd (ask_question w data st) in
  db st' = db st
  /\ clock st' = clock st
  /\ (exists calls,
        trace st' = trace st ++ calls
        /\ (List.length calls <= 1)%nat
        /\ (status_code resp = 400%Z -> calls = []))
  /\ In (status_code resp) [200%Z; 400%Z; 500%Z]
  /\ (status_code resp = 400%Z <-> missing_fields data = Ok true).
Proof.
  intros w data st resp st'. subst resp st'.
  assert (Hsame : trace st = trace st ++ []) by (rewrite app_nil_r; reflexivity).
  unfold ask_question.
  destruct (missing_fields data) as [[|]|e]; simpl.
  - repeat split; auto. exists []. repeat split; auto.
  - destruct data; simpl;
      try (repeat split; auto;
           [ exists []; repeat split; auto | discriminate | discriminate ]).
    unfold chat_answer.
    destruct (get_gemini_model w _) as [m|e];
      [destruct (send_message w m _ _) as [response|e];
       [destruct (text response) as [answer|e]|]|];
      try destruct e; simpl;
      (split; [reflexivity|]); (split; [reflexivity|]);
      (split; [first [ exists []; split; [exact Hsame|]; split; [simpl; lia | reflexivity]
                     | eexists [_]; split; [reflexivity|]; split;
                       [simpl; lia | intros C; discriminate C] ] |]);
      (split; [simpl; tauto | split; intros C; discriminate C]).
  - repeat split; auto; try discriminate. exists []. repeat split; auto.
Qed.

(** ** The store across requests *)

(** What one request does to the two tables: nothing; one Document and
    its two events; or one deletion and its event. *)
Lemma handle_step : forall w r st,
  let st' := snd (handle w r st) in
  let docs := documents (db st) in
  let events := history_events (db st) in
  (documents (db st') = docs /\ history_events (db st') = events)
  \/ (exists doc e1 e2,
        documents (db st') = docs ++ [doc]
        /\ history_events (db st') = events ++ [e1; e2]
        /\ Document.id doc = next_id (map Document.id docs)
        /\ HistoryEvent.id e1 = next_id (map HistoryEvent.id events)
        /\ HistoryEvent.id e2 = next_id (map HistoryEvent.id (events ++ [e1]))
        /\ In (Document.status doc) terminal_statuses
        /\ HistoryEvent.event_type e1 = "UPLOAD_SUCCESS"
        /\ HistoryEvent.document_name e1 = Document.filename doc
        /\ In (HistoryEvent.event_type e2) terminal_event_types)
  \/ (exists doc e,
        r = DeleteDocumentById (Document.id doc)
        /\ In doc docs
        /\ documents (db st')
           = filter (fun d => negb (Document.id d =? Document.id doc)%Z) docs
        /\ history_events (db st') = events ++ [e]
        /\ HistoryEvent.id e = next_id (map HistoryEvent.id events)
        /\ HistoryEvent.event_type e = "DELETE_DOCUMENT").
Proof.
  intros w r st st' docs events. subst st' docs events.
  destruct r as [request|data| | |doc_id]; simpl handle.
  - destruct (lookup "pdfFile" (files request)) as [pdf_file|] eqn:Hfile;
      [|left; unfold simplify_document; rewrite Hfile; split; reflexivity].
    destruct (filename pdf_file) as [|c name'] eqn:Hn;
      [left; unfold simplify_document; rewrite Hfile, Hn; split; reflexivity|].
    assert (Hname : filename pdf_file <> EmptyString) by (rewrite Hn; discriminate).
    clear Hn. right; left.
    destruct (no_text (extract_text_from_pdf w (stream pdf_file))) eqn:Hno.
    + rewrite (simplify_document_no_text w request st pdf_file Hfile Hname Hno).
      unfold add_document, log_event; simpl.
      eexists _, _, _. rewrite <- !app_assoc. simpl.
      repeat (split; [reflexivity|]). simpl. tauto.
    + destruct (extract_text_from_pdf w (stream pdf_file)) as [document_text|] eqn:Ht;
        [|discriminate Hno].
      assert (Hs : strip document_text <> EmptyString).
      { intros E. assert (no_text (Some document_text) = true); [|congruence].
        apply no_text_spec. right. exists document_text. auto. }
      rewrite (simplify_document_with_text w request st pdf_file Hfile Hname
                 document_text Ht Hs).
      cbv zeta. unfold generate_summary.
      destruct (get_gemini_model w _) as [m|e];
        [destruct (generate_content w m _) as [response|e];
         [destruct (text response) as [summary_text|e]|]|];
        try destruct e;
        unfold add_document, update_document, log_event; simpl;
        (rewrite update_appended_row by reflexivity);
        eexists _, _, _; rewrite <- !app_assoc; simpl;
        repeat (split; [reflexivity|]); simpl; tauto.
  - left. rewrite ask_question_frame. split; reflexivity.
  - left. split; reflexivity.
  - left. split; reflexivity.
  - destruct (delete_document_cases w doc_id st) as [[E _]|[[E _]|D]].
    + left. rewrite E. split; reflexivity.
    + left. rewrite E. split; reflexivity.
    + destruct D as (doc & e & _ & Hin & Hid & _ & Hd & He & _ & Ie & Te & _).
      subst doc_id. right; right. exists doc, e.
      repeat (split; [first [reflexivity | assumption]|]). exact Te.
Qed.

Lemma next_id_positive : forall ids, (1 <= next_id ids)%Z.
Proof.
  intros ids. unfold next_id.
  assert (0 <= fold_right Z.max 0 ids)%Z; [|lia].
  induction ids as [|x ids IH]; simpl; lia.
Qed.

Lemma NoDup_snoc : forall (A : Type) (l : list A) (x : A),
  NoDup l -> ~ In x l -> NoDup (l ++ [x]).
Proof.
  intros A l x Hl Hx. induction l as [|y l IH]; simpl.
  - constructor; [intros []|constructor].
  - inversion Hl; subst. constructor.
    + intros H. apply in_app_or in H. destruct H as [H|[H|[]]]; [contradiction|].
      subst. apply Hx. left. reflexivity.
    + apply IH; [assumption|]. intros H. apply Hx. right. exact H.
Qed.

Lemma NoDup_map_filter : forall (A B : Type) (f : A -> B) (p : A -> bool) (l : list A),
  NoDup (map f l) -> NoDup (map f (filter p l)).
Proof.
  intros A B f p l. induction l as [|x l IH]; simpl; intros H; [constructor|].
  inversion H; subst. destruct (p x); simpl; [|auto].
  constructor; [|auto]. intros Hin. apply in_map_iff in Hin.
  destruct Hin as (y & E & Hy). apply filter_In in Hy.
  match goal with N : ~ In (f x) (map f l) |- _ => apply N end.
  rewrite <- E. apply in_map. tauto.
Qed.

(** Deleting by a key that occurs once removes one row. *)
Lemma filter_removes_one : forall docs doc,
  NoDup (map Document.id docs) -> In doc docs ->
  S (List.length (filter (fun d => negb (Document.id d =? Document.id doc)%Z) docs))
  = List.length docs.
Proof.
  induction docs as [|x docs IH]; intros doc Hnd Hin; [contradiction|].
  simpl in Hnd. inversion Hnd as [|? ? Hx Hnd']; subst. simpl.
  destruct Hin as [->|Hin].
  - rewrite Z.eqb_refl. simpl. f_equal.
    rewrite (proj2 (filter_ext_in_iff _ (fun _ => true) docs)).
    + clear. induction docs; simpl; congruence.
    + intros d Hd. apply negb_true_iff, Z.eqb_neq. intros E.
      apply Hx. rewrite <- E. apply in_map, Hd.
  - destruct (Z.eqb_spec (Document.id x) (Document.id doc)) as [E|E]; simpl.
    + exfalso. apply Hx. rewrite E. apply in_map, Hin.
    + f_equal. apply IH; assumption.
Qed.

Lemma count_events_app : forall ty l l',
  count_events ty (l ++ l') = count_events ty l + count_events ty l'.
Proof.
  intros ty l l'. unfold count_events. rewrite filter_app, length_app. reflexivity.
Qed.

(** What holds of the two tables in every state the server can reach. *)
Lemma reachable_invariant : forall st,
  reachable st ->
  let docs := documents (db st) in
  let events := history_events (db st) in
  NoDup (map Document.id docs)
  /\ NoDup (map HistoryEvent.id events)
  /\ (forall d, In d docs -> (1 <= Document.id d)%Z)
  /\ (forall e, In e events -> (1 <= HistoryEvent.id e)%Z)
  /\ (forall d, In d docs -> In (Document.status d) terminal_statuses)
  /\ (forall d, In d docs ->
        exists e, In e events
                  /\ HistoryEvent.event_type e = "UPLOAD_SUCCESS"
                  /\ HistoryEvent.document_name e = Document.filename d)
  /\ count_events "UPLOAD_SUCCESS" events
     = count_events "TEXT_EXTRACT_FAIL" events
       + count_events "ANALYSIS_SUCCESS" events
       + count_events "ANALYSIS_FAIL" events
  /\ List.length docs + count_events "DELETE_DOCUMENT" events
     = count_events "UPLOAD_SUCCESS" events.
Proof.
  intros st R. induction R as [|w r st R IH]; cbv zeta in *.
  - simpl. repeat split; try constructor; try (intros ? []); try contradiction.
  - destruct IH as (Nd & Ne & Pd & Pe & Ts & Up & Bal & Cons).
    destruct (handle_step w r st) as [[Hd He]|[A|D]].
    + rewrite Hd, He. repeat split; assumption.
    + destruct A as (doc & e1 & e2 & Hd & He & Id & I1 & I2 & Hs & T1 & N1 & T2).
      rewrite Hd, He.
      assert (He' : history_events (db st) ++ [e1; e2]
                    = (history_events (db st) ++ [e1]) ++ [e2])
        by (rewrite <- app_assoc; reflexivity).
      assert (C1 : forall ty, count_events ty [e1; e2]
                 = (if String.eqb "UPLOAD_SUCCESS" ty then 1 else 0)
                   + (if String.eqb (HistoryEvent.event_type e2) ty then 1 else 0)).
      { intros ty. unfold count_events. cbn [filter]. rewrite T1.
        destruct (String.eqb "UPLOAD_SUCCESS" ty);
          destruct (String.eqb (HistoryEvent.event_type e2) ty); reflexivity. }
      split; [|split; [|split; [|split; [|split; [|split; [|split]]]]]].
      * rewrite map_app. apply NoDup_snoc; [exact Nd|]. simpl. rewrite Id.
        apply next_id_fresh.
      * rewrite He', !map_app. apply NoDup_snoc.
        -- apply NoDup_snoc; [exact Ne|]. simpl. rewrite I1. apply next_id_fresh.
        -- simpl. rewrite I2, map_app. apply next_id_fresh.
      * intros d Hin. apply in_app_or in Hin. destruct Hin as [Hin|[<-|[]]]; [auto|].
        rewrite Id. apply next_id_positive.
      * intros e Hin. apply in_app_or in Hin.
        destruct Hin as [Hin|[<-|[<-|[]]]]; [auto| |].
        -- rewrite I1. apply next_id_positive.
        -- rewrite I2. apply next_id_positive.
      * intros d Hin. apply in_app_or in Hin. destruct Hin as [Hin|[<-|[]]]; auto.
      * intros d Hin. apply in_app_or in Hin. destruct Hin as [Hin|[<-|[]]].
        -- destruct (Up d Hin) as (e & Hin' & Te & Ne').
           exists e. split; [apply in_or_app; left; exact Hin' | auto].
        -- exists e1. split; [apply in_or_app; right; left; reflexivity | auto].
      * rewrite !count_events_app, !C1.
        simpl in T2. destruct T2 as [<-|[<-|[<-|[]]]]; simpl; lia.
      * rewrite length_app, !count_events_app, !C1.
        simpl in T2. destruct T2 as [<-|[<-|[<-|[]]]]; simpl; lia.
    + destruct D as (doc & e & _ & Hin & Hd & He & Ie & Te).
      rewrite Hd, He.
      assert (C1 : forall ty, count_events ty [e]
                 = if String.eqb "DELETE_DOCUMENT" ty then 1 else 0).
      { intros ty. unfold count_events. cbn [filter]. rewrite Te.
        destruct (String.eqb "DELETE_DOCUMENT" ty); reflexivity. }
      split; [|split; [|split; [|split; [|split; [|split; [|split]]]]]].
      * apply NoDup_map_filter. exact Nd.
      * rewrite map_app. apply NoDup_snoc; [exact Ne|]. simpl. rewrite Ie.
        apply next_id_fresh.
      * intros d Hd'. apply filter_In in Hd'. apply Pd. tauto.
      * intros e' Hin'. apply in_app_or in Hin'.
        destruct Hin' as [Hin'|[<-|[]]]; [auto|]. rewrite Ie. apply next_id_positive.
      * intros d Hd'. apply filter_In in Hd'. apply Ts. tauto.
      * intros d Hd'. apply filter_In in Hd'. destruct Hd' as [Hd' _].
        destruct (Up d Hd') as (e' & Hin' & Te' & Ne').
        exists e'. split; [apply in_or_app; left; exact Hin' | auto].
      * rewrite !count_events_app, !C1. simpl. lia.
      * rewrite !count_events_app, !C1. simpl.
        pose proof (filter_removes_one _ doc Nd Hin) as F. lia.
Qed.

(** X10.  One request, whichever it is, only appends to the history (at
    most two events) and never alters a stored Document: every row of the
    new store is a row of the old store or the one row the request has
    created, and a row of the old store is missing afterwards only if the
    request was the DELETE of its id. *)
Theorem request_effect_on_store : forall w r st,
  let st' := snd (handle w r st) in
  (exists new_events,
     history_events (db st') = history_events (db st) ++ new_events
     /\ (List.length new_events <= 2)%nat)
  /\ (forall d, In d (documents (db st')) ->
                In d (documents (db st))
                \/ Document.id d = next_id (map Document.id (documents (db st))))
  /\ (forall d, In d (documents (db st)) ->
                In d (documents (db st'))
                \/ r = DeleteDocumentById (Document.id d)).
Proof.
  intros w r st st'. subst st'.
  destruct (handle_step w r st) as [[Hd He]|[A|D]].
  - rewrite Hd, He. split; [|split; auto].
    exists []. rewrite app_nil_r. split; [reflexivity | simpl; lia].
  - destruct A as (doc & e1 & e2 & -> & -> & Id & _).
    split; [|split].
    + exists [e1; e2]. split; [reflexivity | simpl; lia].
    + intros d Hin. apply in_app_or in Hin. destruct Hin as [Hin|[<-|[]]]; auto.
    + intros d Hin. left. apply in_or_app. left. exact Hin.
  - destruct D as (doc & e & -> & Hin & -> & -> & _).
    split; [|split].
    + exists [e]. split; [reflexivity | simpl; lia].
    + intros d Hd. apply filter_In in Hd. tauto.
    + intros d Hd. destruct (Z.eqb_spec (Document.id d) (Document.id doc)) as [E|E].
      * right. rewrite E. reflexivity.
      * left. apply filter_In. split; [exact Hd|].
        apply negb_true_iff, Z.eqb_neq. exact E.
Qed.

(** X11.  In every state the server can reach, the keys of the Documents
    are pairwise distinct and positive, and so are the keys of the
    HistoryEvents. *)
Theorem primary_keys_unique : forall st,
  reachable st ->
  NoDup (map Document.id (documents (db st)))
  /\ NoDup (map HistoryEvent.id (history_events (db st)))
  /\ (forall d, In d (documents (db st)) -> (1 <= Document.id d)%Z)
  /\ (forall e, In e (history_events (db st)) -> (1 <= HistoryEvent.id e)%Z).
Proof.
  intros st R. destruct (reachable_invariant st R) as (A & B & C & D & _).
  auto.
Qed.

Lemma primary_keys_unique_witness :
  NoDup (map HistoryEvent.id (history_events (db after_upload_and_delete))).
Proof.
  apply (primary_keys_unique after_upload_and_delete).
  unfold after_upload_and_delete. do 2 apply reachable_step. constructor.
Defined.

(** X12.  Between requests no Document is Pending or In Progress: in every
    state the server can reach, every Document is Analyzed or Analysis
    Failed. *)
Theorem no_document_left_in_progress : forall st,
  reachable st ->
  forall d, In d (documents (db st)) -> In (Document.status d) terminal_statuses.
Proof.
  intros st R. destruct (reachable_invariant st R) as (_ & _ & _ & _ & T & _).
  exact T.
Qed.

Lemma no_document_left_in_progress_witness :
  Forall (fun d => In (Document.status d) terminal_statuses)
         (documents (db after_scanned_upload)).
Proof.
  apply Forall_forall.
  apply (no_document_left_in_progress after_scanned_upload).
  unfold after_scanned_upload. apply reachable_step. constructor.
Defined.

(** X13.  Every stored Document is accounted for in the history: in every
    reachable state, for each Document there is an UPLOAD_SUCCESS event
    bearing its filename. *)
Theorem stored_document_has_upload_event : forall st,
  reachable st ->
  forall d, In d (documents (db st)) ->
    exists e, In e (history_events (db st))
              /\ HistoryEvent.event_type e = "UPLOAD_SUCCESS"
              /\ HistoryEvent.document_name e = Document.filename d.
Proof.
  intros st R. destruct (reachable_invariant st R) as (_ & _ & _ & _ & _ & U & _).
  exact U.
Qed.

Lemma stored_document_has_upload_event_witness :
  exists d e,
    In d (documents (db after_scanned_upload))
    /\ In e (history_events (db after_scanned_upload))
    /\ HistoryEvent.event_type e = "UPLOAD_SUCCESS"
    /\ HistoryEvent.document_name e = Document.filename d.
Proof.
  assert (R : reachable after_scanned_upload).
  { unfold after_scanned_upload. apply reachable_step. constructor. }
  assert (H : exists d, In d (documents (db after_scanned_upload))).
  { eexists. left. reflexivity. }
  destruct H as [d Hd].
  destruct (stored_document_has_upload_event after_scanned_upload R d Hd)
    as (e & He & Ht & Hn).
  exists d, e. auto.
Defined.

(** X14.  The history accounts for the store in every reachable state:
    the events that close an upload (TEXT_EXTRACT_FAIL, ANALYSIS_SUCCESS,
    ANALYSIS_FAIL) are never more than the UPLOAD_SUCCESS events, and the
    stored Documents are never more than the UPLOAD_SUCCESS events less
    the DELETE_DOCUMENT events. *)
Theorem history_accounts_for_documents : forall st,
  reachable st ->
  let events := history_events (db st) in
  count_events "TEXT_EXTRACT_FAIL" events
  + count_events "ANALYSIS_SUCCESS" events
  + count_events "ANALYSIS_FAIL" events
  <= count_events "UPLOAD_SUCCESS" events
  /\ List.length (documents (db st)) + count_events "DELETE_DOCUMENT" events
     <= count_events "UPLOAD_SUCCESS" events.
Proof.
  intros st R.
  destruct (reachable_invariant st R) as (_ & _ & _ & _ & _ & _ & B & C).
  cbv zeta in *. split; lia.
Qed.

Lemma history_accounts_for_documents_witness :
  List.length (documents (db after_upload_and_delete))
  + count_events "DELETE_DOCUMENT" (history_events (db after_upload_and_delete))
  <= count_events "UPLOAD_SUCCESS" (history_events (db after_upload_and_delete)).
Proof.
  apply (history_accounts_for_documents after_upload_and_delete).
  unfold after_upload_and_delete. do 2 apply reachable_step. constructor.
Defined.

(** ** Deleting, listing *)



